(** * MonetIQ savings goals engine: a shallow embedding of
      [MonetIQ/goals/savings_goals.py] and the properties of its
      analysis pass.

    The engine is a Python class whose methods read the wall clock, mutate
    the fields of [self] and may raise.  The embedding keeps the three
    effects apart from the arithmetic: programs are trees over the events
    "read the clock", "read self", "update self" and "raise", and are run
    against a clock oracle.  Python floats are modelled by exact rationals
    ([Q]); [round], [int], [max] and [min] follow the Python definitions on
    them.  What the exception handlers print to the console is left out. *)

From Stdlib Require Import ZArith QArith Qround Qabs List String Bool Lia Lqa Morphisms.
From ExtLib Require Import Structures.Monad Structures.MonadExc.
Import ListNotations.
Import MonadNotation.
Local Open Scope monad_scope.
Local Open Scope Z_scope.
Local Open Scope Q_scope.

(* ===================================================================== *)
(** ** Python numbers *)
(* ===================================================================== *)

(** [a < b] and [a <= b] as the tests a Python [if] evaluates. *)
Definition ltb (a b : Q) : bool := negb (Qle_bool b a).
Definition leb (a b : Q) : bool := Qle_bool a b.
Definition gtb (a b : Q) : bool := ltb b a.
Definition geb (a b : Q) : bool := leb b a.

(** [max(a, b)] keeps its first argument unless the second is strictly
    greater; [min(a, b)] keeps the first unless the second is strictly
    smaller. *)
Definition py_max (a b : Q) : Q := if ltb a b then b else a.
Definition py_min (a b : Q) : Q := if ltb b a then b else a.

(** Rounding to the nearest integer, ties to even: what [round] does. *)
Definition round_half_even (x : Q) : Z :=
  let f := Qfloor x in
  match Qcompare (x - inject_Z f)%Q (1 # 2)%Q with
  | Lt => f
  | Gt => (f + 1)%Z
  | Eq => if Z.even f then f else (f + 1)%Z
  end.

(** [round(x, n)] *)
Definition py_round (x : Q) (n : nat) : Q :=
  let scale := inject_Z (10 ^ Z.of_nat n) in
  inject_Z (round_half_even (x * scale)) / scale.

(** [int(x)]: truncation toward zero. *)
Definition py_int (x : Q) : Z := Z.quot (Qnum x) (Z.pos (Qden x)).

(** [sum(...)] over numbers. *)
Definition py_sum (l : list Q) : Q := fold_left Qplus l 0.

(* ===================================================================== *)
(** ** Exceptions, text, dates *)
(* ===================================================================== *)

Inductive exn : Type :=
| ValueError
| ZeroDivisionError
| OverflowError.

(** [a / b] raises on a zero divisor. *)
Definition py_div (a b : Q) : exn + Q :=
  if Qeq_bool b 0 then inl ZeroDivisionError else inr (a / b).

(** The engine's messages are f-strings.  A message is kept as the list of
    its pieces, each interpolated value with the format it is printed in. *)
Inductive piece : Type :=
| Lit (s : string)     (* literal text, or an interpolated str *)
| Money (q : Q)        (* the currency sign, then q with the format ,.0f *)
| Whole (q : Q)        (* q with the format .0f *)
| Int (z : Z).         (* an int *)

Definition text : Type := list piece.

(** A naive [datetime]: microseconds since 0001-01-01T00:00:00 in the
    proleptic Gregorian calendar. *)
Definition datetime : Type := Z.

Definition usec_per_day : Z := 86400000000.

(** Year, month and day of a day count (0 is 0001-01-01). *)
Definition civil (days : Z) : Z * Z * Z :=
  let z := (days + 306)%Z in
  let era := (z / 146097)%Z in
  let doe := (z mod 146097)%Z in
  let yoe := ((doe - doe / 1460 + doe / 36524 - doe / 146096) / 365)%Z in
  let doy := (doe - (365 * yoe + yoe / 4 - yoe / 100))%Z in
  let mp := ((5 * doy + 2) / 153)%Z in
  let d := (doy - (153 * mp + 2) / 5 + 1)%Z in
  let m := (if mp <? 10 then mp + 3 else mp - 9)%Z in
  let y := (yoe + era * 400 + (if m <=? 2 then 1 else 0))%Z in
  (y, m, d).

Definition year (d : datetime) : Z := fst (fst (civil (d / usec_per_day))).
Definition month (d : datetime) : Z := snd (fst (civil (d / usec_per_day))).

(** [datetime(y, m, d)]: midnight of a civil date. *)
Definition mk_datetime (y m d : Z) : datetime :=
  let y' := (if m <=? 2 then y - 1 else y)%Z in
  let era := (y' / 400)%Z in
  let yoe := (y' - era * 400)%Z in
  let mp := (if 2 <? m then m - 3 else m + 9)%Z in
  let doy := ((153 * mp + 2) / 5 + d - 1)%Z in
  let doe := (yoe * 365 + yoe / 4 - yoe / 100 + doy)%Z in
  ((era * 146097 + doe - 306) * usec_per_day)%Z.

(** The first instant after [datetime.max]. *)
Definition datetime_end : datetime := mk_datetime 10000 1 1.

(** [timedelta(days=x)]: rounded to the microsecond, at most 999999999
    days either way. *)
Definition timedelta_days (x : Q) : exn + Z :=
  let us := round_half_even (x * inject_Z usec_per_day)%Q in
  let days := (us / usec_per_day)%Z in
  if ((days <? -999999999) || (999999999 <? days))%Z
  then inl OverflowError else inr us.

(** [d + delta] stays within [datetime.min, datetime.max]. *)
Definition datetime_add (d : datetime) (delta : Z) : exn + datetime :=
  let r := (d + delta)%Z in
  if ((r <? 0) || (datetime_end <=? r))%Z then inl OverflowError else inr r.

(** [(a - b).days] *)
Definition days_between (a b : datetime) : Z := ((a - b) / usec_per_day)%Z.

(** A stored date is a string handed to [datetime.fromisoformat]: either
    the ISO text of a datetime, or text the parser rejects. *)
Inductive iso_text : Type :=
| IsoDate (d : datetime)
| NotIso (s : string).

Definition fromisoformat (t : iso_text) : exn + datetime :=
  match t with
  | IsoDate d => inr d
  | NotIso _ => inl ValueError
  end.

(** Truth value of an optional string: [None] and the empty string are
    false. *)
Definition truthy (t : option iso_text) : bool :=
  match t with
  | None => false
  | Some (NotIso EmptyString) => false
  | Some _ => true
  end.

(** A raw numeric field is handed to [float]: either a value it accepts,
    or text it rejects. *)
Inductive raw_number : Type :=
| Numeric (q : Q)
| NotNumeric (s : string).

Definition float (r : raw_number) : exn + Q :=
  match r with
  | Numeric q => inr q
  | NotNumeric _ => inl ValueError
  end.

(** Python dicts keep insertion order: association lists, assignment
    replacing in place. *)
Definition dict (V : Type) : Type := list (string * V).

Fixpoint dict_set {V} (d : dict V) (k : string) (v : V) : dict V :=
  match d with
  | [] => [(k, v)]
  | (k', v') :: rest =>
      if String.eqb k' k then (k, v) :: rest else (k', v') :: dict_set rest k v
  end.

Definition keys {V} (d : dict V) : list string := map fst d.
Definition values {V} (d : dict V) : list V := map snd d.

(** [d.get(k, default)] on an optional key. *)
Definition get {A} (o : option A) (default : A) : A :=
  match o with Some a => a | None => default end.

(* ===================================================================== *)
(** ** Data model *)
(* ===================================================================== *)

Inductive GoalHealth : Type :=
| ON_TRACK
| AT_RISK
| OFF_TRACK
| UNREALISTIC
| COMPLETED.

Record SavingsGoal : Type := {
  goal_id : string;
  name : string;
  goal_type : string;
  target_amount : Q;
  current_amount : Q;
  target_date : option iso_text;
  priority : string;
  monthly_contribution : Q;
  created_date : iso_text;
  last_updated : iso_text;
  description : option string
}.

Record GoalProgress : Type := {
  progress_goal_id : string;
  completion_percentage : Q;
  time_elapsed_percentage : Q;
  expected_progress : Q;
  actual_progress : Q;
  variance : Q;
  on_track : bool;
  months_elapsed : Z;
  months_remaining : option Z
}.

(** The application state, as the storage layer hands it over: every key
    of every dict may be missing. *)
Record Income : Type := {
  monthly_income : option Q;
  sources : option (list string);
  stability : option string;
  income_last_3_months : option (list Q)
}.

Record Expenses : Type := {
  monthly_total : option Q;
  categories : option (dict Q);
  essential : option Q;
  discretionary : option Q;
  expenses_last_3_months : option (list Q)
}.

Record Overspending : Type := {
  is_overspending : option bool;
  overspending_amount : option Q;
  affected_categories : option (list string);
  severity : option string;
  trend : option string
}.

Record Stress : Type := {
  stress_score : option Q;
  stress_level : option string;
  is_stressed : option bool;
  stress_factors : option (list string)
}.

Record GoalInfo : Type := {
  info_name : option string;
  info_type : option string;
  info_target_amount : option raw_number;
  info_current_amount : option raw_number;
  info_target_date : option iso_text;
  info_priority : option string;
  info_monthly_contribution : option raw_number;
  info_created_date : option iso_text;
  info_last_updated : option iso_text;
  info_description : option string
}.

Record State : Type := {
  state_income : option Income;
  state_expenses : option Expenses;
  state_savings_goals : option (dict GoalInfo);
  state_overspending : option Overspending;
  state_stress_index : option Stress
}.

(** The dicts [get_income] and [get_expenses] build. *)
Record IncomeData : Type := {
  income_monthly_income : Q;
  income_sources : list string;
  income_stability : string;
  income_data_last_3_months : list Q
}.

Record ExpenseData : Type := {
  expense_monthly_total : Q;
  expense_categories : dict Q;
  essential_expenses : Q;
  discretionary_expenses : Q;
  expense_data_last_3_months : list Q
}.

(** The fields of [self]. *)
Record Engine : Type := {
  goals : dict SavingsGoal;
  income_data : option IncomeData;
  expense_data : option ExpenseData;
  overspending_data : Overspending;
  stress_data : Stress;
  state : State
}.

Definition empty_income : Income := Build_Income None None None None.
Definition empty_expenses : Expenses := Build_Expenses None None None None None.
Definition empty_overspending : Overspending :=
  Build_Overspending None None None None None.
Definition empty_stress : Stress := Build_Stress None None None None.
Definition empty_state : State := Build_State None None None None None.

(** [__init__] *)
Definition init : Engine :=
  {| goals := []; income_data := None; expense_data := None;
     overspending_data := empty_overspending; stress_data := empty_stress;
     state := empty_state |}.

Definition set_goals (g : dict SavingsGoal) (e : Engine) : Engine :=
  {| goals := g; income_data := income_data e; expense_data := expense_data e;
     overspending_data := overspending_data e; stress_data := stress_data e;
     state := state e |}.
Definition set_income_data (d : IncomeData) (e : Engine) : Engine :=
  {| goals := goals e; income_data := Some d; expense_data := expense_data e;
     overspending_data := overspending_data e; stress_data := stress_data e;
     state := state e |}.
Definition set_expense_data (d : ExpenseData) (e : Engine) : Engine :=
  {| goals := goals e; income_data := income_data e; expense_data := Some d;
     overspending_data := overspending_data e; stress_data := stress_data e;
     state := state e |}.
Definition set_overspending_data (d : Overspending) (e : Engine) : Engine :=
  {| goals := goals e; income_data := income_data e;
     expense_data := expense_data e;
     overspending_data := d; stress_data := stress_data e; state := state e |}.
Definition set_stress_data (d : Stress) (e : Engine) : Engine :=
  {| goals := goals e; income_data := income_data e;
     expense_data := expense_data e;
     overspending_data := overspending_data e; stress_data := d;
     state := state e |}.
Definition set_state (s : State) (e : Engine) : Engine :=
  {| goals := goals e; income_data := income_data e;
     expense_data := expense_data e;
     overspending_data := overspending_data e; stress_data := stress_data e;
     state := s |}.

(* ===================================================================== *)
(** ** Programs: clock reads, access to self, exceptions *)
(* ===================================================================== *)

Inductive Prog (A : Type) : Type :=
| Ret (a : A)
| Raise (e : exn)
| Now (k : datetime -> Prog A)          (* datetime.now() *)
| Self (k : Engine -> Prog A)           (* read the fields of self *)
| Update (f : Engine -> Engine) (k : Prog A).  (* assign a field of self *)

Arguments Ret {A} a.
Arguments Raise {A} e.
Arguments Now {A} k.
Arguments Self {A} k.
Arguments Update {A} f k.

Fixpoint pbind {A B} (m : Prog A) (f : A -> Prog B) : Prog B :=
  match m with
  | Ret a => f a
  | Raise e => Raise e
  | Now k => Now (fun d => pbind (k d) f)
  | Self k => Self (fun s => pbind (k s) f)
  | Update g k => Update g (pbind k f)
  end.

(** [try: m  except Exception as e: h e]; what [m] did to self and to the
    clock before raising stays done. *)
Fixpoint try_except {A} (m : Prog A) (h : exn -> Prog A) : Prog A :=
  match m with
  | Ret a => Ret a
  | Raise e => h e
  | Now k => Now (fun d => try_except (k d) h)
  | Self k => Self (fun s => try_except (k s) h)
  | Update g k => Update g (try_except k h)
  end.

#[global] Instance Monad_Prog : Monad Prog :=
  {| ret := @Ret; bind := @pbind |}.

#[global] Instance MonadExc_Prog : MonadExc exn Prog :=
  {| raise := @Raise; catch := @try_except |}.

Definition now : Prog datetime := Now Ret.
Definition self : Prog Engine := Self Ret.
Definition update (f : Engine -> Engine) : Prog unit := Update f (Ret tt).

(** A pure computation that may raise. *)
Definition lift {A} (r : exn + A) : Prog A :=
  match r with
  | inl e => Raise e
  | inr a => Ret a
  end.

(** The world a program runs in: how many times the clock was read, and
    the engine object. *)
Record World : Type := { reads : nat; engine : Engine }.

Definition Clock : Type := nat -> datetime.

(** Running a program: the i-th call of [datetime.now()] returns
    [clock i]. *)
Fixpoint run {A} (m : Prog A) (clock : Clock) (w : World) : (exn + A) * World :=
  match m with
  | Ret a => (inr a, w)
  | Raise e => (inl e, w)
  | Now k =>
      run (k (clock (reads w))) clock
          {| reads := S (reads w); engine := engine w |}
  | Self k => run (k (engine w)) clock w
  | Update f k =>
      run k clock {| reads := reads w; engine := f (engine w) |}
  end.

(** [for x in xs: acc = body x acc] *)
Fixpoint for_each {X S} (xs : list X) (acc : S) (body : X -> S -> Prog S)
  : Prog S :=
  match xs with
  | [] => ret acc
  | x :: rest => acc' <- body x acc ;; for_each rest acc' body
  end.

(* ===================================================================== *)
(** ** Data access layer *)
(* ===================================================================== *)

(** The structure [load_state] installs: the storage call is a comment in
    the source, and every section is present and empty. *)
Definition placeholder_state : State :=
  {| state_income := Some empty_income;
     state_expenses := Some empty_expenses;
     state_savings_goals := Some [];
     state_overspending := Some empty_overspending;
     state_stress_index := Some empty_stress |}.

Definition load_state : Prog State :=
  catch
    (update (set_state placeholder_state) ;;
     s <- self ;;
     ret (state s))
    (fun _ => ret empty_state).

(** The dict [get_income] builds from the state. *)
Definition read_income (st : State) : IncomeData :=
  let income := get (state_income st) empty_income in
  {| income_monthly_income := get (monthly_income income) 0;
     income_sources := get (sources income) [];
     income_stability := get (stability income) "stable"%string;
     income_data_last_3_months := get (income_last_3_months income) [] |}.

Definition get_income : Prog IncomeData :=
  catch
    (s <- self ;;
     let data := read_income (state s) in
     update (set_income_data data) ;;
     ret data)
    (fun _ => ret (Build_IncomeData 0 [] "stable"%string [])).

(** The dict [get_expenses] builds from the state. *)
Definition read_expenses (st : State) : ExpenseData :=
  let expenses := get (state_expenses st) empty_expenses in
  {| expense_monthly_total := get (monthly_total expenses) 0;
     expense_categories := get (categories expenses) [];
     essential_expenses := get (essential expenses) 0;
     discretionary_expenses := get (discretionary expenses) 0;
     expense_data_last_3_months := get (expenses_last_3_months expenses) [] |}.

Definition get_expenses : Prog ExpenseData :=
  catch
    (s <- self ;;
     let data := read_expenses (state s) in
     update (set_expense_data data) ;;
     ret data)
    (fun _ => ret (Build_ExpenseData 0 [] 0 0 [])).

(** [float(goal_info.get(key, 0))] *)
Definition float_or_zero (r : option raw_number) : exn + Q :=
  match r with
  | Some v => float v
  | None => inr 0
  end.

(** [goal_info.get(key, datetime.now().isoformat())]: the default is
    evaluated whether or not the key is there. *)
Definition date_or_now (t : option iso_text) : Prog iso_text :=
  d <- now ;;
  ret (get t (IsoDate d)).

(** The constructor call of the loop body, arguments left to right. *)
Definition load_goal (gid : string) (goal_info : GoalInfo) : Prog SavingsGoal :=
  let name_ := get (info_name goal_info) "Unnamed Goal"%string in
  let goal_type_ := get (info_type goal_info) "custom"%string in
  target <- lift (float_or_zero (info_target_amount goal_info)) ;;
  current <- lift (float_or_zero (info_current_amount goal_info)) ;;
  let priority_ := get (info_priority goal_info) "medium"%string in
  contribution <- lift (float_or_zero (info_monthly_contribution goal_info)) ;;
  created <- date_or_now (info_created_date goal_info) ;;
  updated <- date_or_now (info_last_updated goal_info) ;;
  ret {| goal_id := gid;
         name := name_;
         goal_type := goal_type_;
         target_amount := target;
         current_amount := current;
         target_date := info_target_date goal_info;
         priority := priority_;
         monthly_contribution := contribution;
         created_date := created;
         last_updated := updated;
         description := info_description goal_info |}.

Definition get_savings_goals : Prog (dict SavingsGoal) :=
  catch
    (s <- self ;;
     let goals_data := get (state_savings_goals (state s)) [] in
     update (set_goals []) ;;
     for_each goals_data tt
       (fun item _ =>
          goal <- load_goal (fst item) (snd item) ;;
          update (fun e => set_goals (dict_set (goals e) (fst item) goal) e)) ;;
     s' <- self ;;
     ret (goals s'))
    (fun _ => ret []).

Definition default_overspending : Overspending :=
  {| is_overspending := Some false;
     overspending_amount := Some 0;
     affected_categories := Some [];
     severity := Some "low"%string;
     trend := Some "stable"%string |}.

Definition read_overspending (st : State) : Overspending :=
  get (state_overspending st) default_overspending.

Definition get_overspending_data : Prog Overspending :=
  catch
    (s <- self ;;
     let data := read_overspending (state s) in
     update (set_overspending_data data) ;;
     ret data)
    (fun _ => ret (Build_Overspending (Some false) None None None None)).

Definition default_stress : Stress :=
  {| stress_score := Some 0;
     stress_level := Some "low"%string;
     is_stressed := Some false;
     stress_factors := Some [] |}.

Definition read_stress (st : State) : Stress :=
  get (state_stress_index st) default_stress.

Definition get_stress_index : Prog Stress :=
  catch
    (s <- self ;;
     let data := read_stress (state s) in
     update (set_stress_data data) ;;
     ret data)
    (fun _ => ret (Build_Stress (Some 0) None (Some false) None)).

(* ===================================================================== *)
(** ** Core goal logic *)
(* ===================================================================== *)

(** [(b.year - a.year) * 12 + (b.month - a.month)] *)
Definition month_span (a b : datetime) : Z :=
  ((year b - year a) * 12 + (month b - month a))%Z.

(** The date of an [if goal.target_date:] that was taken. *)
Definition if_set (t : option iso_text) : option iso_text :=
  if truthy t then t else None.

(** [x or 12] on an optional int. *)
Definition or_12 (m : option Z) : Z :=
  match m with
  | Some z => if (z =? 0)%Z then 12%Z else z
  | None => 12%Z
  end.

(** The metrics of a goal once its dates are parsed and the clock is
    read: [target] is the parsed target date of a goal that has one. *)
Definition goal_progress (goal : SavingsGoal) (created current_date : datetime)
  (target : option datetime) : GoalProgress :=
  (* Completion percentage *)
  let completion :=
    if gtb (target_amount goal) 0
    then current_amount goal / target_amount goal * 100 else 0 in
  let completion := py_min completion 100 in
  (* Time calculations *)
  let elapsed := Z.max 1 (month_span created current_date) in
  let remaining :=
    match target with
    | Some t => Some (Z.max 0 (month_span current_date t))
    | None => None
    end in
  let time_elapsed :=
    match target with
    | Some t =>
        let total_months := Z.max 1 (month_span created t) in
        if (0 <? total_months)%Z
        then inject_Z elapsed / inject_Z total_months * 100 else 0
    | None => 0
    end in
  (* Expected vs actual progress *)
  let expected := if truthy (target_date goal) then time_elapsed else 0 in
  let actual := completion in
  let variance_ := actual - expected in
  (* On track determination *)
  let on_track_ :=
    if truthy (target_date goal)
    then geb variance_ (-10)
    else
      let expected_amount := monthly_contribution goal * inject_Z elapsed in
      geb (current_amount goal) (expected_amount * 0.9) in
  {| progress_goal_id := goal_id goal;
     completion_percentage := py_round completion 2;
     time_elapsed_percentage := py_round time_elapsed 2;
     expected_progress := py_round expected 2;
     actual_progress := py_round actual 2;
     variance := py_round variance_ 2;
     on_track := on_track_;
     months_elapsed := elapsed;
     months_remaining := remaining |}.

(** [calculate_goal_progress]: parse the creation date, read the clock,
    parse the target date if there is one, compute. *)
Definition calculate_goal_progress (goal : SavingsGoal) : Prog GoalProgress :=
  created <- lift (fromisoformat (created_date goal)) ;;
  current_date <- now ;;
  target <-
    match if_set (target_date goal) with
    | Some t => target <- lift (fromisoformat t) ;; ret (Some target)
    | None => ret None
    end ;;
  ret (goal_progress goal created current_date target).

Record Capacity : Type := {
  base_capacity : Q;
  conservative : Q;
  moderate : Q;
  aggressive : Q;
  maximum : Q;
  stress_adjusted : bool;
  overspending_impact : bool
}.

(** The base of the estimate: income less expenses, less half of an
    active overspending amount. *)
Definition capacity_base (income expenses : Q) (overspending : Overspending) : Q :=
  let base := income - expenses in
  if get (is_overspending overspending) false
  then base - get (overspending_amount overspending) 0 * 0.5
  else base.

Definition stress_multiplier (stress : Stress) : Q :=
  if get (is_stressed stress) false
  then py_max 0.6 (1.0 - (get (stress_score stress) 0 / 100) * 0.4)
  else 1.0.

(** The estimate from the four signals. *)
Definition capacity_estimate (income : IncomeData) (expenses : ExpenseData)
  (stress : Stress) (overspending : Overspending) : Capacity :=
  let monthly_income := income_monthly_income income in
  let monthly_expenses := expense_monthly_total expenses in
  (* Base savings capacity, adjusted for overspending *)
  let base := capacity_base monthly_income monthly_expenses overspending in
  (* Stress-aware adjustments *)
  let multiplier := stress_multiplier stress in
  (* Calculate ranges *)
  let conservative_ := py_max 0 (base * 0.2 * multiplier) in
  let moderate_ := py_max 0 (base * 0.4 * multiplier) in
  let aggressive_ := py_max 0 (base * 0.7 * multiplier) in
  let maximum_ := py_max 0 (base * multiplier) in
  {| base_capacity := py_round base 2;
     conservative := py_round conservative_ 2;
     moderate := py_round moderate_ 2;
     aggressive := py_round aggressive_ 2;
     maximum := py_round maximum_ 2;
     stress_adjusted := ltb multiplier 1.0;
     overspending_impact := get (is_overspending overspending) false |}.

Definition estimate_monthly_savings_capacity : Prog Capacity :=
  income <- get_income ;;
  expenses <- get_expenses ;;
  stress <- get_stress_index ;;
  overspending <- get_overspending_data ;;
  ret (capacity_estimate income expenses stress overspending).

Record Feasibility : Type := {
  is_feasible : bool;
  feasibility_score : Z;
  required_monthly : Q;
  available_capacity : Q;
  capacity_utilization : Q;
  summary : string;
  reasons : list text;
  recommendations : list text
}.

(** The monthly amount the goal asks for.  [months_remaining] is tested
    for truth, so a deadline in the current month (0 months left) takes
    the branch of the goals without a deadline. *)
Definition required_monthly_for (goal : SavingsGoal) (progress : GoalProgress) : Q :=
  let remaining_amount := target_amount goal - current_amount goal in
  match if_set (target_date goal), months_remaining progress with
  | Some _, Some m =>
      if (m =? 0)%Z then monthly_contribution goal
      else if (0 <? m)%Z then remaining_amount / inject_Z m
      else remaining_amount (* Due now *)
  | _, _ => monthly_contribution goal (* No target date *)
  end.

(** The locals the five checks update. *)
Record Verdict : Type := {
  verdict_feasible : bool;
  verdict_score : Z;
  verdict_reasons : list text;
  verdict_recommendations : list text
}.

(** Check 1: Required vs Available Capacity *)
Definition check_capacity (required : Q) (capacity : Capacity)
  (progress : GoalProgress) : Verdict :=
  if gtb required (maximum capacity) then
    {| verdict_feasible := false;
       verdict_score := 100 - 50;
       verdict_reasons :=
         [[Lit "Required monthly savings ("; Money required;
           Lit ") exceeds maximum capacity ("; Money (maximum capacity);
           Lit ")"]];
       verdict_recommendations :=
         [[Lit "Consider extending target date or reducing goal amount by ";
           Money ((required - maximum capacity)
                  * inject_Z (or_12 (months_remaining progress)))]] |}
  else if gtb required (aggressive capacity) then
    {| verdict_feasible := true;
       verdict_score := 100 - 20;
       verdict_reasons :=
         [[Lit "Goal requires aggressive savings ("; Money required;
           Lit "/month)"]];
       verdict_recommendations :=
         [[Lit "This goal is achievable but requires significant financial discipline"]] |}
  else if gtb required (moderate capacity) then
    {| verdict_feasible := true;
       verdict_score := 100 - 10;
       verdict_reasons :=
         [[Lit "Goal requires above-moderate savings commitment"]];
       verdict_recommendations := [] |}
  else
    {| verdict_feasible := true; verdict_score := 100;
       verdict_reasons := []; verdict_recommendations := [] |}.

(** Check 2: Stress Impact *)
Definition check_stress (stress : Stress) (v : Verdict) : Verdict :=
  if get (is_stressed stress) false then
    {| verdict_feasible := verdict_feasible v;
       verdict_score := verdict_score v - 15;
       verdict_reasons := verdict_reasons v ++
         [[Lit "Current financial stress may impact savings ability"]];
       verdict_recommendations := verdict_recommendations v ++
         [[Lit "Focus on stress reduction and expense optimization first"]] |}
  else v.

(** Check 3: Overspending Impact *)
Definition check_overspending (overspending : Overspending) (v : Verdict)
  : Verdict :=
  if get (is_overspending overspending) false then
    {| verdict_feasible := verdict_feasible v;
       verdict_score := verdict_score v - 15;
       verdict_reasons := verdict_reasons v ++
         [[Lit "Active overspending (";
           Lit (get (severity overspending) "low"%string);
           Lit " severity) threatens goal progress"]];
       verdict_recommendations := verdict_recommendations v ++
         [[Lit "Address overspending in discretionary categories before increasing goal contributions"]] |}
  else v.

(** Check 4: Historical Performance *)
Definition check_history (progress : GoalProgress) (v : Verdict) : Verdict :=
  if ltb (variance progress) (-20) then
    {| verdict_feasible := verdict_feasible v;
       verdict_score := verdict_score v - 20;
       verdict_reasons := verdict_reasons v ++
         [[Lit "Goal is "; Whole (Qabs (variance progress));
           Lit "% behind schedule"]];
       verdict_recommendations := verdict_recommendations v ++
         [[Lit "Review and adjust monthly contribution or extend timeline"]] |}
  else v.

(** Check 5: Timeline Realism.  The recommendation divides by the moderate
    band. *)
Definition check_timeline (goal : SavingsGoal) (capacity : Capacity)
  (progress : GoalProgress) (v : Verdict) : exn + Verdict :=
  let remaining_amount := target_amount goal - current_amount goal in
  match if_set (target_date goal), months_remaining progress with
  | Some _, Some m =>
      if (m <? 3)%Z && gtb remaining_amount (maximum capacity * 3) then
        match py_div remaining_amount (moderate capacity) with
        | inl e => inl e
        | inr months =>
            inr {| verdict_feasible := false;
                   verdict_score := verdict_score v - 30;
                   verdict_reasons := verdict_reasons v ++
                     [[Lit "Insufficient time remaining to reach goal"]];
                   verdict_recommendations := verdict_recommendations v ++
                     [[Lit "Extend deadline by at least ";
                       Int (py_int months - m); Lit " months"]] |}
        end
      else inr v
  | _, _ => inr v
  end.

Definition feasibility_summary (score : Z) : string :=
  if (80 <=? score)%Z then "Highly feasible - goal is well within reach"
  else if (60 <=? score)%Z
  then "Feasible with discipline - stay focused on contributions"
  else if (40 <=? score)%Z
  then "Challenging but possible - requires optimization"
  else "Unrealistic under current conditions - adjustment needed".

Definition evaluate_goal_feasibility (goal : SavingsGoal) : Prog Feasibility :=
  capacity <- estimate_monthly_savings_capacity ;;
  progress <- calculate_goal_progress goal ;;
  (* Calculate required monthly savings *)
  let required := required_monthly_for goal progress in
  (* Feasibility checks *)
  let v := check_capacity required capacity progress in
  s <- self ;;
  let v := check_stress (stress_data s) v in
  let v := check_overspending (overspending_data s) v in
  let v := check_history progress v in
  v <- lift (check_timeline goal capacity progress v) ;;
  let score := Z.max 0 (verdict_score v) in
  ret {| is_feasible := verdict_feasible v;
         feasibility_score := score;
         required_monthly := py_round required 2;
         available_capacity := moderate capacity;
         capacity_utilization :=
           py_round (if gtb (maximum capacity) 0
                     then required / maximum capacity * 100 else 0) 2;
         summary := feasibility_summary score;
         reasons := verdict_reasons v;
         recommendations := verdict_recommendations v |}.

(** [affected_goals] is a list of ids, or for a temporal conflict a dict
    of two lists. *)
Inductive Affected : Type :=
| Ids (ids : list string)
| ShortLong (short_term long_term : list string).

Record Conflict : Type := {
  conflict_type : string;
  conflict_severity : string;
  conflict_description : text;
  conflict_impact : option text;
  affected_goals : Affected;
  conflict_feasibility_score : option Z;
  recommendation : text
}.

Definition capacity_overload (total_required : Q) (capacity : Capacity)
  (ids : list string) : Conflict :=
  let excess := total_required - maximum capacity in
  {| conflict_type := "capacity_overload";
     conflict_severity := "high";
     conflict_description :=
       [Lit "All goals require "; Money total_required;
        Lit "/month but maximum capacity is "; Money (maximum capacity)];
     conflict_impact := Some [Money excess; Lit " shortfall per month"];
     affected_goals := Ids ids;
     conflict_feasibility_score := None;
     recommendation := [Lit "Prioritize goals or extend timelines"] |}.

Definition priority_conflict (total_high_priority : Q)
  (high_priority_goals : list SavingsGoal) : Conflict :=
  {| conflict_type := "priority_conflict";
     conflict_severity := "medium";
     conflict_description :=
       [Lit "Multiple high-priority goals competing for ";
        Money total_high_priority; Lit "/month"];
     conflict_impact := None;
     affected_goals := Ids (map goal_id high_priority_goals);
     conflict_feasibility_score := None;
     recommendation :=
       [Lit "Re-evaluate goal priorities or adjust contribution amounts"] |}.

Definition temporal_conflict (short_term_goals long_term_goals : list SavingsGoal)
  : Conflict :=
  {| conflict_type := "temporal_conflict";
     conflict_severity := "medium";
     conflict_description :=
       [Lit "Short-term goal focus may compromise long-term financial stability"];
     conflict_impact := None;
     affected_goals :=
       ShortLong (map goal_id short_term_goals) (map goal_id long_term_goals);
     conflict_feasibility_score := None;
     recommendation :=
       [Lit "Ensure emergency fund and retirement goals maintain minimum contributions"] |}.

Definition lifestyle_conflict (goal : SavingsGoal) (feasibility : Feasibility)
  : Conflict :=
  {| conflict_type := "lifestyle_conflict";
     conflict_severity := "high";
     conflict_description :=
       [Lit "Goal '"; Lit (name goal);
        Lit "' is unachievable under current spending patterns"];
     conflict_impact := None;
     affected_goals := Ids [goal_id goal];
     conflict_feasibility_score := Some (feasibility_score feasibility);
     recommendation :=
       hd [Lit "Review goal parameters"] (recommendations feasibility) |}.

(** The loop of conflict 3: the clock is read once for the year and once
    more for the month. *)
Definition split_by_term (goal : SavingsGoal)
  (acc : list SavingsGoal * list SavingsGoal)
  : Prog (list SavingsGoal * list SavingsGoal) :=
  match if_set (target_date goal) with
  | Some t =>
      target <- lift (fromisoformat t) ;;
      at_year <- now ;;
      at_month <- now ;;
      let months_away :=
        ((year target - year at_year) * 12 + (month target - month at_month))%Z in
      if (months_away <=? 12)%Z
      then ret (fst acc ++ [goal], snd acc)
      else ret (fst acc, snd acc ++ [goal])
  | None => ret acc
  end.

Definition detect_goal_conflicts : Prog (list Conflict) :=
  s <- self ;;
  match goals s with
  | [] => ret []
  | _ :: _ =>
      capacity <- estimate_monthly_savings_capacity ;;
      s <- self ;;
      (* Calculate total required monthly savings *)
      let total_required := py_sum (map monthly_contribution (values (goals s))) in
      (* Conflict 1: Total requirements exceed capacity *)
      let conflicts :=
        if gtb total_required (maximum capacity)
        then [capacity_overload total_required capacity (keys (goals s))]
        else [] in
      (* Conflict 2: High priority goals competing *)
      let high_priority_goals :=
        filter (fun g => String.eqb (priority g) "high") (values (goals s)) in
      let conflicts :=
        if (1 <? List.length high_priority_goals)%nat then
          let total_high_priority :=
            py_sum (map monthly_contribution high_priority_goals) in
          if gtb total_high_priority (aggressive capacity)
          then conflicts ++ [priority_conflict total_high_priority high_priority_goals]
          else conflicts
        else conflicts in
      (* Conflict 3: Short-term goals hurting long-term stability *)
      s <- self ;;
      terms <- for_each (values (goals s)) ([], []) split_by_term ;;
      let short_term_goals := fst terms in
      let long_term_goals := snd terms in
      let conflicts :=
        match short_term_goals, long_term_goals with
        | _ :: _, _ :: _ =>
            let short_term_required :=
              py_sum (map monthly_contribution short_term_goals) in
            if gtb short_term_required (moderate capacity)
            then conflicts ++ [temporal_conflict short_term_goals long_term_goals]
            else conflicts
        | _, _ => conflicts
        end in
      (* Conflict 4: Goals impossible under current lifestyle *)
      s <- self ;;
      for_each (values (goals s)) conflicts
        (fun goal conflicts =>
           feasibility <- evaluate_goal_feasibility goal ;;
           if negb (is_feasible feasibility)
           then ret (conflicts ++ [lifestyle_conflict goal feasibility])
           else ret conflicts)
  end.

(* ===================================================================== *)
(** ** Risk and health analysis *)
(* ===================================================================== *)

(** [GoalHealth.value] *)
Definition health_value (h : GoalHealth) : string :=
  match h with
  | ON_TRACK => "on_track"
  | AT_RISK => "at_risk"
  | OFF_TRACK => "off_track"
  | UNREALISTIC => "unrealistic"
  | COMPLETED => "completed"
  end.

Definition assign_goal_health_status (goal : SavingsGoal)
  : Prog (GoalHealth * text) :=
  progress <- calculate_goal_progress goal ;;
  feasibility <- evaluate_goal_feasibility goal ;;
  (* Check if completed; the source closes the message with an emoji *)
  if geb (completion_percentage progress) 100 then
    ret (COMPLETED, [Lit "Goal successfully completed!"])
  (* Check if unrealistic *)
  else if negb (is_feasible feasibility)
          || (feasibility_score feasibility <? 30)%Z then
    ret (UNREALISTIC, [Lit (summary feasibility)])
  (* Analyze based on progress and variance *)
  else if on_track progress && geb (variance progress) (-5) then
    if (70 <=? feasibility_score feasibility)%Z
    then ret (ON_TRACK, [Lit "Goal is progressing as planned"])
    else ret (AT_RISK, [Lit "On track but capacity concerns exist"])
  else if geb (variance progress) (-20) then
    ret (AT_RISK, [Lit "Goal is "; Whole (Qabs (variance progress));
                   Lit "% behind schedule"])
  else
    ret (OFF_TRACK, [Lit "Goal is significantly behind (variance: ";
                     Whole (variance progress); Lit "%)"]).

Record FrozenGoal : Type := {
  frozen_goal_id : string;
  frozen_goal_name : string;
  frozen_reason : string
}.

Record ReducedContribution : Type := {
  reduced_goal_id : string;
  reduced_goal_name : string;
  current_contribution : Q;
  recommended_contribution : Q;
  reduced_reason : string
}.

Record StressAdjustments : Type := {
  stress_detected : bool;
  adjustments_stress_level : string;
  adjustments_recommendations : list string;
  frozen_goals : list FrozenGoal;
  reduced_contributions : list ReducedContribution
}.

Definition adjust_goals_using_stress : Prog StressAdjustments :=
  stress <- get_stress_index ;;
  let detected := get (is_stressed stress) false in
  let level := get (stress_level stress) "low"%string in
  if negb detected then
    ret {| stress_detected := detected;
           adjustments_stress_level := level;
           adjustments_recommendations :=
             ["No stress detected - maintain current goal strategy"%string];
           frozen_goals := [];
           reduced_contributions := [] |}
  else
    let score := get (stress_score stress) 0 in
    s <- self ;;
    (* High stress (>70): Recommend freezing low-priority goals *)
    if gtb score 70 then
      ret {| stress_detected := detected;
             adjustments_stress_level := level;
             adjustments_recommendations :=
               ["Focus only on essential goals (emergency fund, critical deadlines)"%string;
                "Temporarily pause low-priority goals until stress reduces"%string];
             frozen_goals :=
               map (fun goal =>
                      {| frozen_goal_id := goal_id goal;
                         frozen_goal_name := name goal;
                         frozen_reason :=
                           "Low priority goal frozen due to high financial stress" |})
                   (filter (fun goal => String.eqb (priority goal) "low")
                           (values (goals s)));
             reduced_contributions := [] |}
    (* Moderate stress (40-70): Recommend reducing contributions *)
    else if gtb score 40 then
      ret {| stress_detected := detected;
             adjustments_stress_level := level;
             adjustments_recommendations :=
               ["Consider reducing non-essential goal contributions by 30-50%"%string;
                "Prioritize financial stability and stress reduction"%string];
             frozen_goals := [];
             reduced_contributions :=
               map (fun goal =>
                      let reduced_amount := monthly_contribution goal * 0.5 in
                      {| reduced_goal_id := goal_id goal;
                         reduced_goal_name := name goal;
                         current_contribution := monthly_contribution goal;
                         recommended_contribution := py_round reduced_amount 2;
                         reduced_reason :=
                           "Reduced contribution due to moderate financial stress" |})
                   (filter (fun goal =>
                              String.eqb (priority goal) "low"
                              || String.eqb (priority goal) "medium")
                           (values (goals s))) |}
    (* Low stress: General caution *)
    else
      ret {| stress_detected := detected;
             adjustments_stress_level := level;
             adjustments_recommendations :=
               ["Monitor stress levels and adjust goals if stress increases"%string];
             frozen_goals := [];
             reduced_contributions := [] |}.

Record DelayEntry : Type := {
  entry_goal_name : string;
  entry_delay_months : Z;
  impact_severity : string
}.

Record OverspendingImpact : Type := {
  overspending_detected : bool;
  impact_severity_level : string;
  impact_affected_goals : list string;
  estimated_delay : dict DelayEntry;
  recovery_actions : list text
}.

(** [', '.join(xs)] *)
Fixpoint join (xs : list string) : string :=
  match xs with
  | [] => ""
  | [x] => x
  | x :: rest => x ++ ", " ++ join rest
  end.

Definition integrate_overspending_impact : Prog OverspendingImpact :=
  overspending <- get_overspending_data ;;
  let detected := get (is_overspending overspending) false in
  let level := get (severity overspending) "low"%string in
  if negb detected then
    ret {| overspending_detected := detected;
           impact_severity_level := level;
           impact_affected_goals := [];
           estimated_delay := [];
           recovery_actions := [] |}
  else
    let amount := get (overspending_amount overspending) 0 in
    let affected := get (affected_categories overspending) [] in
    (* Calculate impact on each goal *)
    s <- self ;;
    delays <-
      for_each (values (goals s)) ([], [])
        (fun goal (acc : list string * dict DelayEntry) =>
           _ <- calculate_goal_progress goal ;;
           let remaining := target_amount goal - current_amount goal in
           (* Estimate delay if overspending continues *)
           if gtb (monthly_contribution goal) 0 then
             let reduced_contribution :=
               py_max 0 (monthly_contribution goal - amount * 0.3) in
             let delay_months :=
               if gtb reduced_contribution 0 then
                 let original_months := remaining / monthly_contribution goal in
                 let new_months := remaining / reduced_contribution in
                 py_int (new_months - original_months)
               else 999%Z (* Indefinite delay *) in
             ret (fst acc ++ [goal_id goal],
                  dict_set (snd acc) (goal_id goal)
                    {| entry_goal_name := name goal;
                       entry_delay_months := delay_months;
                       impact_severity :=
                         if (6 <? delay_months)%Z then "high"
                         else if (3 <? delay_months)%Z then "medium"
                         else "low" |})
           else ret acc) ;;
    (* Generate recovery actions *)
    let actions :=
      match affected with
      | [] => []
      | _ :: _ => [[Lit "Reduce spending in: "; Lit (join (firstn 3 affected))]]
      end in
    let actions :=
      actions ++ [[Lit "Reclaim "; Money amount;
                   Lit "/month to restore goal timelines"]] in
    let actions :=
      match severity overspending with
      | Some sev =>
          if String.eqb sev "high"
          then actions ++
               [[Lit "Critical: Review and freeze non-essential subscriptions and expenses"]]
          else actions
      | None => actions
      end in
    ret {| overspending_detected := detected;
           impact_severity_level := level;
           impact_affected_goals := fst delays;
           estimated_delay := snd delays;
           recovery_actions := actions |}.

(* ===================================================================== *)
(** ** Predictive analytics *)
(* ===================================================================== *)

Record Prediction : Type := {
  prediction_goal_id : string;
  prediction_goal_name : string;
  predicted_completion_date : option datetime;
  months_to_completion : Q;
  success_probability : Q;
  predicted_monthly_rate : Q;
  target_monthly_rate : Q;
  confidence : string
}.

Definition predict_goal_completion (goal : SavingsGoal) : Prog Prediction :=
  progress <- calculate_goal_progress goal ;;
  let remaining := target_amount goal - current_amount goal in
  (* Analyze historical contribution rate *)
  let elapsed := months_elapsed progress in
  let actual_monthly_rate :=
    if (0 <? elapsed)%Z then current_amount goal / inject_Z elapsed
    else monthly_contribution goal in
  (* Adjust for overspending and stress *)
  overspending <- get_overspending_data ;;
  stress <- get_stress_index ;;
  let adjustment_factor := 1.0 in
  let adjustment_factor :=
    if get (is_overspending overspending) false
    then adjustment_factor * 0.85 else adjustment_factor in
  let adjustment_factor :=
    if get (is_stressed stress) false
    then adjustment_factor * 0.90 else adjustment_factor in
  let predicted_rate := actual_monthly_rate * adjustment_factor in
  (* Calculate predicted completion *)
  outcome <-
    (if gtb predicted_rate 0 then
       let months := remaining / predicted_rate in
       today <- now ;;
       delta <- lift (timedelta_days (months * 30)) ;;
       predicted_date <- lift (datetime_add today delta) ;;
       (* Calculate success probability *)
       probability <-
         match if_set (target_date goal) with
         | Some t =>
             target <- lift (fromisoformat t) ;;
             if (predicted_date <=? target)%Z
             then ret (py_min 0.95 (0.7 + (variance progress / 100) * 0.25))
             else
               let delay_days := days_between predicted_date target in
               ret (py_max 0.1 (0.7 - (inject_Z delay_days / 365) * 0.3))
         | None =>
             (* No deadline - base on historical consistency *)
             ret (if geb (variance progress) (-10) then 0.8 else 0.6)
         end ;;
       ret (months, Some predicted_date, probability)
     else ret (999, None, 0.1)) ;;
  let '(months, predicted_date, probability) := outcome in
  ret {| prediction_goal_id := goal_id goal;
         prediction_goal_name := name goal;
         predicted_completion_date := predicted_date;
         months_to_completion := py_round months 1;
         success_probability := py_round probability 2;
         predicted_monthly_rate := py_round predicted_rate 2;
         target_monthly_rate := monthly_contribution goal;
         confidence :=
           if (3 <=? elapsed)%Z then "high"
           else if (1 <=? elapsed)%Z then "medium" else "low" |}.

Record DelayInfo : Type := {
  delay_goal_id : string;
  has_delay : bool;
  delay_months : Q;
  delay_reasons : list string;
  risk_level : string
}.

Definition estimate_goal_delay (goal : SavingsGoal) : Prog DelayInfo :=
  prediction <- predict_goal_completion goal ;;
  let delay_info :=
    {| delay_goal_id := goal_id goal; has_delay := false; delay_months := 0;
       delay_reasons := []; risk_level := "low" |} in
  match if_set (target_date goal) with
  | None => ret delay_info
  | Some t =>
      target <- lift (fromisoformat t) ;;
      match predicted_completion_date prediction with
      | None =>
          ret {| delay_goal_id := goal_id goal; has_delay := true;
                 delay_months := 999;
                 delay_reasons :=
                   ["Goal appears unachievable at current rate"%string];
                 risk_level := "critical" |}
      | Some predicted_date =>
          if (target <? predicted_date)%Z then
            let delay_days := days_between predicted_date target in
            let months := inject_Z delay_days / 30 in
            (* Determine risk level *)
            let risk :=
              if gtb months 6 then "high"%string
              else if gtb months 3 then "medium"%string else "low"%string in
            (* Identify reasons *)
            progress <- calculate_goal_progress goal ;;
            let why :=
              if ltb (variance progress) (-15)
              then ["Significantly behind schedule"%string] else [] in
            s <- self ;;
            let why :=
              if get (is_overspending (overspending_data s)) false
              then why ++ ["Overspending reducing available savings"%string]
              else why in
            let why :=
              if get (is_stressed (stress_data s)) false
              then why ++ ["Financial stress impacting contributions"%string]
              else why in
            feasibility <- evaluate_goal_feasibility goal ;;
            let why :=
              if gtb (capacity_utilization feasibility) 80
              then why ++ ["Limited savings capacity"%string] else why in
            ret {| delay_goal_id := goal_id goal; has_delay := true;
                   delay_months := py_round months 1;
                   delay_reasons := why;
                   risk_level := risk |}
          else ret delay_info
      end
  end.

(* ===================================================================== *)
(** ** Smart insights generation *)
(* ===================================================================== *)

Record Insight : Type := {
  insight_type : string;
  insight_priority : string;
  insight_goal_id : option string;
  title : text;
  message : text;
  action : text
}.

(** The insights of one goal (insight 2). *)
Definition goal_insights (goal : SavingsGoal) (insights : list Insight)
  : Prog (list Insight) :=
  progress <- calculate_goal_progress goal ;;
  feasibility <- evaluate_goal_feasibility goal ;;
  _ <- predict_goal_completion goal ;;
  let insights :=
    (* Behind schedule warning *)
    if ltb (variance progress) (-20) then
      let additional_needed :=
        (target_amount goal * Qabs (variance progress) / 100)
        / inject_Z (Z.max 1 (or_12 (months_remaining progress))) in
      insights ++
      [{| insight_type := "behind_schedule";
          insight_priority := "high";
          insight_goal_id := Some (goal_id goal);
          title := [Lit (name goal); Lit ": Behind Schedule"];
          message := [Lit "You need "; Money additional_needed;
                      Lit " more per month to meet your target date"];
          action := [Lit "Increase monthly contribution or extend deadline by ";
                     Whole (Qabs (variance progress) / 10); Lit " months"] |}]
    (* Near completion encouragement *)
    else if gtb (completion_percentage progress) 80
            && ltb (completion_percentage progress) 100 then
      let remaining := target_amount goal - current_amount goal in
      insights ++
      [{| insight_type := "near_completion";
          insight_priority := "low";
          insight_goal_id := Some (goal_id goal);
          title := [Lit (name goal); Lit ": Almost There!"];
          message := [Lit "Only "; Money remaining;
                      Lit " remaining to reach your goal"];
          action := [Lit "Stay focused - you're in the home stretch"] |}]
    else insights in
  (* Unrealistic goal warning *)
  if negb (is_feasible feasibility) then
    ret (insights ++
         [{| insight_type := "unrealistic_goal";
             insight_priority := "critical";
             insight_goal_id := Some (goal_id goal);
             title := [Lit (name goal); Lit ": Needs Adjustment"];
             message := [Lit (summary feasibility)];
             action := hd [Lit "Review goal parameters"]
                          (recommendations feasibility) |}])
  else ret insights.

Definition generate_savings_insights : Prog (list Insight) :=
  s <- self ;;
  match goals s with
  | [] =>
      ret [{| insight_type := "no_goals";
              insight_priority := "high";
              insight_goal_id := None;
              title := [Lit "No Savings Goals Set"];
              message := [Lit "Start building your financial future by creating your first savings goal"];
              action := [Lit "Create a goal"] |}]
  | _ :: _ =>
      capacity <- estimate_monthly_savings_capacity ;;
      (* Insight 1: Capacity utilization *)
      s <- self ;;
      let total_contributions :=
        py_sum (map monthly_contribution (values (goals s))) in
      let utilization :=
        if gtb (maximum capacity) 0
        then total_contributions / maximum capacity * 100 else 0 in
      let insights :=
        if ltb utilization 50 then
          [{| insight_type := "underutilized_capacity";
              insight_priority := "medium";
              insight_goal_id := None;
              title := [Lit "Opportunity to Save More"];
              message := [Lit "You're using only "; Whole utilization;
                          Lit "% of your savings capacity (";
                          Money (maximum capacity - total_contributions);
                          Lit "/month available)"];
              action := [Lit "Consider increasing goal contributions or adding new goals"] |}]
        else if gtb utilization 90 then
          [{| insight_type := "overutilized_capacity";
              insight_priority := "high";
              insight_goal_id := None;
              title := [Lit "Savings Capacity Strained"];
              message := [Lit "Your goals require "; Whole utilization;
                          Lit "% of available savings capacity"];
              action := [Lit "Review goal priorities or extend timelines"] |}]
        else [] in
      (* Insight 2: Goal-specific insights *)
      s <- self ;;
      insights <- for_each (values (goals s)) insights goal_insights ;;
      (* Insight 3: Overspending impact *)
      impact <- integrate_overspending_impact ;;
      let total_delay :=
        fold_left Z.add (map entry_delay_months (values (estimated_delay impact))) 0%Z in
      let insights :=
        if overspending_detected impact && (0 <? total_delay)%Z then
          insights ++
          [{| insight_type := "overspending_impact";
              insight_priority := "high";
              insight_goal_id := None;
              title := [Lit "Overspending Delaying Goals"];
              message := [Lit "Current overspending could delay goals by ";
                          Whole (inject_Z total_delay); Lit " months total"];
              action := hd [Lit "Reduce discretionary spending"]
                           (recovery_actions impact) |}]
        else insights in
      (* Insight 4: Stress-based recommendations *)
      adjustments <- adjust_goals_using_stress ;;
      let insights :=
        match stress_detected adjustments, adjustments_recommendations adjustments with
        | true, first :: _ =>
            insights ++
            [{| insight_type := "stress_warning";
                insight_priority := "high";
                insight_goal_id := None;
                title := [Lit "Financial Stress Detected"];
                message := [Lit first];
                action := [Lit "Consider pausing or reducing low-priority goals temporarily"] |}]
        | _, _ => insights
        end in
      (* Insight 5: Goal conflicts *)
      conflicts <- detect_goal_conflicts ;;
      let high_severity_conflicts :=
        filter (fun c => String.eqb (conflict_severity c) "high") conflicts in
      match high_severity_conflicts with
      | first :: _ =>
          ret (insights ++
               [{| insight_type := "goal_conflict";
                   insight_priority := "critical";
                   insight_goal_id := None;
                   title := [Lit "Goal Conflicts Detected"];
                   message := conflict_description first;
                   action := recommendation first |}])
      | [] => ret insights
      end
  end.

(* ===================================================================== *)
(** ** Public API *)
(* ===================================================================== *)

Record HealthSummary : Type := {
  count_on_track : Z;
  count_at_risk : Z;
  count_off_track : Z;
  count_unrealistic : Z;
  count_completed : Z
}.

(** [goal_health_summary[health_status.value] += 1] *)
Definition count_health (h : GoalHealth) (c : HealthSummary) : HealthSummary :=
  match h with
  | ON_TRACK =>
      Build_HealthSummary (count_on_track c + 1) (count_at_risk c)
        (count_off_track c) (count_unrealistic c) (count_completed c)
  | AT_RISK =>
      Build_HealthSummary (count_on_track c) (count_at_risk c + 1)
        (count_off_track c) (count_unrealistic c) (count_completed c)
  | OFF_TRACK =>
      Build_HealthSummary (count_on_track c) (count_at_risk c)
        (count_off_track c + 1) (count_unrealistic c) (count_completed c)
  | UNREALISTIC =>
      Build_HealthSummary (count_on_track c) (count_at_risk c)
        (count_off_track c) (count_unrealistic c + 1) (count_completed c)
  | COMPLETED =>
      Build_HealthSummary (count_on_track c) (count_at_risk c)
        (count_off_track c) (count_unrealistic c) (count_completed c + 1)
  end.

Record GoalAnalysis : Type := {
  goal_info : SavingsGoal;
  progress : GoalProgress;
  feasibility : Feasibility;
  health_status : string;
  health_explanation : text;
  prediction : Prediction;
  delay_estimate : DelayInfo
}.

Record Summary : Type := {
  total_goals : nat;
  total_target_amount : Q;
  total_saved : Q;
  total_remaining : Q;
  overall_progress_percentage : Q;
  health_distribution : HealthSummary;
  goals_on_track : Z;
  goals_needing_attention : Z
}.

Record Report : Type := {
  report_summary : Summary;
  report_goals : dict GoalAnalysis;
  goal_health : HealthSummary;
  conflicts : list Conflict;
  predictions : dict Prediction;
  insights : list Insight;
  savings_capacity : Capacity;
  stress_adjustments : StressAdjustments;
  report_overspending_impact : OverspendingImpact;
  report_generated : datetime;
  engine_version : string
}.

(** The locals of the per-goal loop of the report. *)
Record Analysis : Type := {
  goals_analysis : dict GoalAnalysis;
  goal_health_summary : HealthSummary;
  analysis_predictions : dict Prediction
}.

Definition analyse_goal (item : string * SavingsGoal) (acc : Analysis)
  : Prog Analysis :=
  let gid := fst item in
  let goal := snd item in
  progress_ <- calculate_goal_progress goal ;;
  feasibility_ <- evaluate_goal_feasibility goal ;;
  health <- assign_goal_health_status goal ;;
  prediction_ <- predict_goal_completion goal ;;
  delay <- estimate_goal_delay goal ;;
  ret {| goals_analysis :=
           dict_set (goals_analysis acc) gid
             {| goal_info := goal;
                progress := progress_;
                feasibility := feasibility_;
                health_status := health_value (fst health);
                health_explanation := snd health;
                prediction := prediction_;
                delay_estimate := delay |};
         (* Update health summary *)
         goal_health_summary := count_health (fst health) (goal_health_summary acc);
         analysis_predictions :=
           dict_set (analysis_predictions acc) gid prediction_ |}.

Definition get_savings_goals_report : Prog Report :=
  (* Load all data *)
  _ <- load_state ;;
  _ <- get_income ;;
  _ <- get_expenses ;;
  _ <- get_savings_goals ;;
  _ <- get_overspending_data ;;
  _ <- get_stress_index ;;
  (* Generate summary statistics *)
  s <- self ;;
  let total_goals_ := List.length (goals s) in
  let total_target := py_sum (map target_amount (values (goals s))) in
  let total_saved_ := py_sum (map current_amount (values (goals s))) in
  let total_remaining_ := total_target - total_saved_ in
  let overall_progress :=
    if gtb total_target 0 then total_saved_ / total_target * 100 else 0 in
  (* Analyze each goal *)
  analysis <-
    for_each (goals s)
      {| goals_analysis := [];
         goal_health_summary := Build_HealthSummary 0 0 0 0 0;
         analysis_predictions := [] |}
      analyse_goal ;;
  (* Generate insights and conflicts *)
  insights_ <- generate_savings_insights ;;
  conflicts_ <- detect_goal_conflicts ;;
  capacity <- estimate_monthly_savings_capacity ;;
  adjustments <- adjust_goals_using_stress ;;
  impact <- integrate_overspending_impact ;;
  (* Compile final report *)
  generated <- now ;;
  let health := goal_health_summary analysis in
  ret {| report_summary :=
           {| total_goals := total_goals_;
              total_target_amount := py_round total_target 2;
              total_saved := py_round total_saved_ 2;
              total_remaining := py_round total_remaining_ 2;
              overall_progress_percentage := py_round overall_progress 2;
              health_distribution := health;
              goals_on_track := (count_on_track health + count_completed health)%Z;
              goals_needing_attention :=
                (count_at_risk health + count_off_track health
                 + count_unrealistic health)%Z |};
         report_goals := goals_analysis analysis;
         goal_health := health;
         conflicts := conflicts_;
         predictions := analysis_predictions analysis;
         insights := insights_;
         savings_capacity := capacity;
         stress_adjustments := adjustments;
         report_overspending_impact := impact;
         report_generated := generated;
         engine_version := "1.0.0" |}.

(* ===================================================================== *)
(** ** Convenience functions for app.py *)
(* ===================================================================== *)

(** [k in d] and [d[k]] *)
Fixpoint dict_get {V} (d : dict V) (k : string) : option V :=
  match d with
  | [] => None
  | (k', v) :: rest => if String.eqb k' k then Some v else dict_get rest k
  end.

(** What [quick_goal_health_check] returns for a goal it finds. *)
Record HealthCheck : Type := {
  check_goal_id : string;
  check_goal_name : string;
  check_health_status : string;
  check_explanation : text;
  check_completion_percentage : Q;
  check_on_track : bool
}.

Module Convenience.

(** [create_savings_goal]: [fresh] is the string [str(uuid.uuid4())]
    returns; the defaults of the optional arguments are the caller's to
    pass. *)
Definition create_savings_goal (fresh : string) (name_ : string)
  (target_amount_ : Q) (goal_type_ : string) (target_date_ : option iso_text)
  (priority_ : string) (monthly_contribution_ : Q)
  (description_ : option string) : Prog SavingsGoal :=
  created <- now ;;
  updated <- now ;;
  ret {| goal_id := fresh;
         name := name_;
         goal_type := goal_type_;
         target_amount := target_amount_;
         current_amount := 0;
         target_date := target_date_;
         priority := priority_;
         monthly_contribution := monthly_contribution_;
         created_date := IsoDate created;
         last_updated := IsoDate updated;
         description := description_ |}.

(** The module-level [get_savings_goals_report]: a fresh engine, then the
    method. *)
Definition get_savings_goals_report : Prog Report :=
  update (fun _ => init) ;;
  get_savings_goals_report.

(** [quick_goal_health_check]: the error dict is the left case. *)
Definition quick_goal_health_check (gid : string)
  : Prog (string + HealthCheck) :=
  update (fun _ => init) ;;
  _ <- load_state ;;
  _ <- get_savings_goals ;;
  s <- self ;;
  match dict_get (goals s) gid with
  | None => ret (inl "Goal not found"%string)
  | Some goal =>
      progress_ <- calculate_goal_progress goal ;;
      health <- assign_goal_health_status goal ;;
      ret (inr {| check_goal_id := gid;
                  check_goal_name := name goal;
                  check_health_status := health_value (fst health);
                  check_explanation := snd health;
                  check_completion_percentage := completion_percentage progress_;
                  check_on_track := on_track progress_ |})
  end.

End Convenience.

(* ===================================================================== *)
(** * Specification vocabulary *)
(* ===================================================================== *)

(** Two clocks agree on the readings number [from] to [to - 1]. *)
Definition agree (c1 c2 : Clock) (from to : nat) : Prop :=
  forall i, (from <= i < to)%nat -> c1 i = c2 i.

(** Programs that never assign [self.state]. *)
Inductive keeps_state {A} : Prog A -> Prop :=
| keeps_ret a : keeps_state (Ret a)
| keeps_raise e : keeps_state (Raise e)
| keeps_now k : (forall d, keeps_state (k d)) -> keeps_state (Now k)
| keeps_self k : (forall s, keeps_state (k s)) -> keeps_state (Self k)
| keeps_update f k :
    (forall e, state (f e) = state e) -> keeps_state k ->
    keeps_state (Update f k).

(** The signals a snapshot carries, as the getters read them. *)
Definition snapshot_base (st : State) : Q :=
  capacity_base (income_monthly_income (read_income st))
    (expense_monthly_total (read_expenses st)) (read_overspending st).

Definition snapshot_multiplier (st : State) : Q :=
  stress_multiplier (read_stress st).

Definition capacity_of (st : State) : Capacity :=
  capacity_estimate (read_income st) (read_expenses st) (read_stress st)
    (read_overspending st).

(** The engine after the four getters ran. *)
Definition refreshed (e : Engine) : Engine :=
  set_overspending_data (read_overspending (state e))
    (set_stress_data (read_stress (state e))
       (set_expense_data (read_expenses (state e))
          (set_income_data (read_income (state e)) e))).

(** A world whose engine holds the snapshot [st]. *)
Definition world_of (st : State) : World :=
  {| reads := 0; engine := set_state st init |}.

Definition income_only (income expenses : Q) : State :=
  {| state_income := Some (Build_Income (Some income) None None None);
     state_expenses := Some (Build_Expenses (Some expenses) None None None None);
     state_savings_goals := None;
     state_overspending := None;
     state_stress_index := None |}.


(** The dates of [goal] are ISO dates: its creation date reads [created],
    and its target date, when it has one, reads [target]. *)
Definition well_dated (goal : SavingsGoal) (created : datetime)
  (target : option datetime) : Prop :=
  created_date goal = IsoDate created
  /\ if_set (target_date goal) = option_map IsoDate target.

(** A goal with the fields the examples vary. *)
Definition goal_with (target_ current contribution : Q)
  (created : datetime) (due : option datetime) : SavingsGoal :=
  {| goal_id := "g1";
     name := "Trip";
     goal_type := "vacation";
     target_amount := target_;
     current_amount := current;
     target_date := option_map IsoDate due;
     priority := "medium";
     monthly_contribution := contribution;
     created_date := IsoDate created;
     last_updated := IsoDate created;
     description := None |}.

(** A world whose engine holds the snapshot [st] and the goals [gs]. *)
Definition world_with (st : State) (gs : list SavingsGoal) : World :=
  {| reads := 0;
     engine := set_goals (map (fun g => (goal_id g, g)) gs) (set_state st init) |}.

(** A clock stopped at [d]. *)
Definition stopped (d : datetime) : Clock := fun _ => d.

(** Whether check 5 (timeline realism) fires. *)
Definition timeline_fires (goal : SavingsGoal) (capacity : Capacity)
  (progress : GoalProgress) : bool :=
  match if_set (target_date goal), months_remaining progress with
  | Some _, Some m =>
      (m <? 3)%Z
      && gtb (target_amount goal - current_amount goal) (maximum capacity * 3)
  | _, _ => false
  end.

(** What checks 2 to 5 take off the score: 15 for stress, 15 for
    overspending, 20 for a variance below -20, 30 for the timeline. *)
Definition later_penalties (goal : SavingsGoal) (capacity : Capacity)
  (progress : GoalProgress) (e : Engine) : Z :=
  ((if get (is_stressed (stress_data e)) false then 15 else 0)
   + (if get (is_overspending (overspending_data e)) false then 15 else 0)
   + (if ltb (variance progress) (-20) then 20 else 0)
   + (if timeline_fires goal capacity progress then 30 else 0))%Z.

(** Whether [float] accepts the three numeric fields of a raw record. *)
Definition numeric_ok (info : GoalInfo) : bool :=
  match float_or_zero (info_target_amount info),
        float_or_zero (info_current_amount info),
        float_or_zero (info_monthly_contribution info) with
  | inr _, inr _, inr _ => true
  | _, _, _ => false
  end.

(** The value of a numeric field: 0 when it is missing. *)
Definition value_or_zero (r : option raw_number) : Q :=
  match r with
  | Some (Numeric q) => q
  | _ => 0
  end.

(** The adapter's contract, in the specification's words: the goal a raw
    record stands for, with missing numeric fields 0, a missing priority
    medium, a missing type custom and missing dates "now", here the two
    clock readings taken for the record. *)
Definition normalized (gid : string) (info : GoalInfo) (now1 now2 : datetime)
  : SavingsGoal :=
  {| goal_id := gid;
     name := get (info_name info) "Unnamed Goal"%string;
     goal_type := get (info_type info) "custom"%string;
     target_amount := value_or_zero (info_target_amount info);
     current_amount := value_or_zero (info_current_amount info);
     target_date := info_target_date info;
     priority := get (info_priority info) "medium"%string;
     monthly_contribution := value_or_zero (info_monthly_contribution info);
     created_date := get (info_created_date info) (IsoDate now1);
     last_updated := get (info_last_updated info) (IsoDate now2);
     description := info_description info |}.

(** One goal per record, in the order of the records; the clock is read
    twice for each, from reading [n] on. *)
Fixpoint normalized_all (records : dict GoalInfo) (clock : Clock) (n : nat)
  : dict SavingsGoal :=
  match records with
  | [] => []
  | (gid, info) :: rest =>
      (gid, normalized gid info (clock n) (clock (S n)))
      :: normalized_all rest clock (S (S n))
  end.

(** The records before the first one with a numeric field [float]
    rejects. *)
Fixpoint loadable (records : dict GoalInfo) : dict GoalInfo :=
  match records with
  | [] => []
  | (gid, info) :: rest =>
      if numeric_ok info then (gid, info) :: loadable rest else []
  end.

(** A raw record with only a target amount. *)
Definition info_with_target (r : raw_number) : GoalInfo :=
  {| info_name := None; info_type := None;
     info_target_amount := Some r; info_current_amount := None;
     info_target_date := None; info_priority := None;
     info_monthly_contribution := None;
     info_created_date := None; info_last_updated := None;
     info_description := None |}.

(** A snapshot with goal records only. *)
Definition goals_only (records : dict GoalInfo) : State :=
  {| state_income := None; state_expenses := None;
     state_savings_goals := Some records;
     state_overspending := None; state_stress_index := None |}.

(** A clock stopped at [d], except that reading number [k] is one
    microsecond later. *)
Definition bumped (d : datetime) (k : nat) : Clock :=
  fun n => if Nat.eqb n k then (d + 1)%Z else d.



(** Programs that never assign the field [field] of self. *)
Inductive leaves {A F} (field : Engine -> F) : Prog A -> Prop :=
| leaves_ret a : leaves field (Ret a)
| leaves_raise e : leaves field (Raise e)
| leaves_now k : (forall d, leaves field (k d)) -> leaves field (Now k)
| leaves_self k : (forall s, leaves field (k s)) -> leaves field (Self k)
| leaves_update f k :
    (forall e, field (f e) = field e) -> leaves field k ->
    leaves field (Update f k).

(** The analysis methods of the engine: every method but the loaders. *)
Inductive analysis : forall A, Prog A -> Prop :=
| analysis_progress goal : analysis _ (calculate_goal_progress goal)
| analysis_capacity : analysis _ estimate_monthly_savings_capacity
| analysis_feasibility goal : analysis _ (evaluate_goal_feasibility goal)
| analysis_conflicts : analysis _ detect_goal_conflicts
| analysis_health goal : analysis _ (assign_goal_health_status goal)
| analysis_stress : analysis _ adjust_goals_using_stress
| analysis_overspending : analysis _ integrate_overspending_impact
| analysis_prediction goal : analysis _ (predict_goal_completion goal)
| analysis_delay goal : analysis _ (estimate_goal_delay goal)
| analysis_insights : analysis _ generate_savings_insights.

(** The sum of the five health counters. *)
Definition counted (c : HealthSummary) : Z :=
  (count_on_track c + count_at_risk c + count_off_track c
   + count_unrealistic c + count_completed c)%Z.

(** A snapshot with the four signals only. *)
Definition signals (income expenses : Q) (overspending : option Overspending)
  (stress : option Stress) : State :=
  {| state_income := Some (Build_Income (Some income) None None None);
     state_expenses := Some (Build_Expenses (Some expenses) None None None None);
     state_savings_goals := None;
     state_overspending := overspending;
     state_stress_index := stress |}.

(** A stress signal with a score. *)
Definition stressed (score : Q) : Stress :=
  {| stress_score := Some score; stress_level := Some "high"%string;
     is_stressed := Some true; stress_factors := None |}.

(** The verdict before check 5, from the capacity, the progress and the
    engine the evaluator reads its signals from. *)
Definition verdict_before_timeline (goal : SavingsGoal) (capacity : Capacity)
  (progress : GoalProgress) (e : Engine) : Verdict :=
  check_history progress
    (check_overspending (overspending_data e)
       (check_stress (stress_data e)
          (check_capacity (required_monthly_for goal progress) capacity
             progress))).

(** What the checks keep true of a verdict: the score is at most 100, and
    an infeasible verdict scores at most 70 and recommends something. *)
Definition sound (v : Verdict) : Prop :=
  (verdict_score v <= 100)%Z
  /\ (verdict_feasible v = false ->
      (verdict_score v <= 70)%Z /\ verdict_recommendations v <> []).

(* ===================================================================== *)
(** * Properties *)
(* ===================================================================== *)

(** ** Comparisons, maxima and rounding *)

Lemma ltb_true a b : ltb a b = true <-> a < b.
Proof.
  unfold ltb. rewrite negb_true_iff, <- not_true_iff_false, Qle_bool_iff.
  split; [apply Qnot_le_lt | apply Qlt_not_le].
Qed.

Lemma ltb_false a b : ltb a b = false <-> b <= a.
Proof. unfold ltb. rewrite negb_false_iff. apply Qle_bool_iff. Qed.

Lemma leb_true a b : leb a b = true <-> a <= b.
Proof. apply Qle_bool_iff. Qed.

Lemma leb_false a b : leb a b = false <-> b < a.
Proof.
  unfold leb. rewrite <- not_true_iff_false, Qle_bool_iff.
  split; [apply Qnot_le_lt | apply Qlt_not_le].
Qed.

Lemma py_max_cases a b : (a < b /\ py_max a b = b) \/ (b <= a /\ py_max a b = a).
Proof.
  unfold py_max. destruct (ltb a b) eqn:E.
  - left. split; [now apply ltb_true | reflexivity].
  - right. split; [now apply ltb_false | reflexivity].
Qed.

Lemma py_min_cases a b : (b < a /\ py_min a b = b) \/ (a <= b /\ py_min a b = a).
Proof.
  unfold py_min. destruct (ltb b a) eqn:E.
  - left. split; [now apply ltb_true | reflexivity].
  - right. split; [now apply ltb_false | reflexivity].
Qed.

Lemma gtb_true a b : gtb a b = true <-> b < a.
Proof. apply ltb_true. Qed.
Lemma gtb_false a b : gtb a b = false <-> a <= b.
Proof. apply ltb_false. Qed.
Lemma geb_true a b : geb a b = true <-> b <= a.
Proof. apply leb_true. Qed.
Lemma geb_false a b : geb a b = false <-> a < b.
Proof. apply leb_false. Qed.

Lemma py_max_nonneg b : 0 <= py_max 0 b.
Proof. destruct (py_max_cases 0 b) as [[H ->]|[H ->]]; lra. Qed.

#[global] Instance ltb_comp : Proper (Qeq ==> Qeq ==> eq) ltb.
Proof.
  intros x x' Hx y y' Hy.
  destruct (ltb x y) eqn:E; symmetry.
  - apply ltb_true. apply ltb_true in E. lra.
  - apply ltb_false. apply ltb_false in E. lra.
Qed.

#[global] Instance py_max_comp : Proper (Qeq ==> Qeq ==> Qeq) py_max.
Proof.
  intros x x' Hx y y' Hy. unfold py_max.
  rewrite (ltb_comp _ _ Hx _ _ Hy). destruct (ltb x' y'); assumption.
Qed.

(** *** Rounding *)

Lemma round_half_even_floor x :
  (Qfloor x <= round_half_even x <= Qfloor x + 1)%Z.
Proof.
  unfold round_half_even.
  destruct (Qcompare (x - inject_Z (Qfloor x)) (1 # 2));
    try destruct (Z.even (Qfloor x)); lia.
Qed.

Lemma round_half_even_up x :
  round_half_even x = (Qfloor x + 1)%Z -> inject_Z (Qfloor x) + (1 # 2) <= x.
Proof.
  unfold round_half_even.
  destruct (Qcompare_spec (x - inject_Z (Qfloor x)) (1 # 2)) as [E|E|E];
    try destruct (Z.even (Qfloor x)); intros H; try lia; lra.
Qed.

Lemma round_half_even_down x :
  round_half_even x = Qfloor x -> x <= inject_Z (Qfloor x) + (1 # 2).
Proof.
  unfold round_half_even.
  destruct (Qcompare_spec (x - inject_Z (Qfloor x)) (1 # 2)) as [E|E|E];
    try destruct (Z.even (Qfloor x)); intros H; try lia; lra.
Qed.

#[global] Instance round_half_even_comp : Proper (Qeq ==> eq) round_half_even.
Proof.
  intros x y E. unfold round_half_even.
  rewrite (Qfloor_comp _ _ E).
  assert (H : x - inject_Z (Qfloor y) == y - inject_Z (Qfloor y)) by lra.
  now rewrite (Qcompare_comp _ _ H _ _ (Qeq_refl (1 # 2))).
Qed.

Lemma round_half_even_Z n : round_half_even (inject_Z n) = n.
Proof.
  unfold round_half_even. rewrite Qfloor_Z.
  destruct (Qcompare_spec (inject_Z n - inject_Z n) (1 # 2)) as [E|E|E];
    [lra | reflexivity | lra].
Qed.

Lemma round_half_even_le x n : x <= inject_Z n -> (round_half_even x <= n)%Z.
Proof.
  intros H.
  destruct (Z.eq_dec (round_half_even x) (Qfloor x + 1)) as [E|E].
  - pose proof (round_half_even_up x E) as U.
    assert (L : inject_Z (Qfloor x) < inject_Z n) by lra.
    rewrite <- Zlt_Qlt in L. lia.
  - pose proof (round_half_even_floor x) as B.
    pose proof (Qfloor_le x) as F.
    assert (L : inject_Z (Qfloor x) <= inject_Z n) by lra.
    rewrite <- Zle_Qle in L. lia.
Qed.

Lemma round_half_even_ge x n : inject_Z n <= x -> (n <= round_half_even x)%Z.
Proof.
  intros H.
  pose proof (round_half_even_floor x) as B.
  pose proof (Qfloor_resp_le _ _ H) as F. rewrite Qfloor_Z in F. lia.
Qed.

(** Below zero the rounding is negative exactly from one half on. *)
Lemma round_half_even_neg x :
  (round_half_even x < 0)%Z <-> x < -(1 # 2).
Proof.
  pose proof (round_half_even_floor x) as B.
  pose proof (Qfloor_le x) as F. pose proof (Qlt_floor x) as G.
  rewrite inject_Z_plus in G.
  split; intros H.
  - destruct (Z.eq_dec (round_half_even x) (Qfloor x)) as [E|E].
    + pose proof (round_half_even_down x E) as D.
      assert (L : (Qfloor x <= -1)%Z) by lia.
      rewrite Zle_Qle in L.
      destruct (Z.eq_dec (Qfloor x) (-1)) as [E1|E1].
      * (* floor is -1: the tie goes to the even 0 *)
        rewrite E1 in *. 
        destruct (Qlt_le_dec x (-(1#2))) as [|K]; [assumption|].
        exfalso. unfold round_half_even in E. rewrite E1 in E.
        destruct (Qcompare_spec (x - inject_Z (-1)) (1 # 2)) as [Q|Q|Q];
          simpl in E; try lia.
        assert (x < inject_Z (-1) + (1#2)) by lra.
        change (inject_Z (-1)) with (-1 # 1) in *. lra.
      * assert (L2 : (Qfloor x <= -2)%Z) by lia.
        rewrite Zle_Qle in L2. change (inject_Z (-2)) with (-2 # 1) in L2.
        change (inject_Z 1) with 1 in G. lra.
    + assert (L : (Qfloor x + 1 <= -1)%Z) by lia.
      rewrite Zle_Qle, inject_Z_plus in L.
      change (inject_Z (-1)) with (-1 # 1) in L. lra.
  - assert (L : (Qfloor x <= -1)%Z).
    { assert (inject_Z (Qfloor x) < inject_Z 0) by (change (inject_Z 0) with 0; lra).
      rewrite <- Zlt_Qlt in H0. lia. }
    destruct (Z.eq_dec (round_half_even x) (Qfloor x + 1)) as [E|E]; [|lia].
    pose proof (round_half_even_up x E) as U.
    assert (L2 : inject_Z (Qfloor x) < inject_Z (-1)).
    { change (inject_Z (-1)) with (-1 # 1). lra. }
    rewrite <- Zlt_Qlt in L2. lia.
Qed.

Lemma scale_pos n : 0 < inject_Z (10 ^ Z.of_nat n).
Proof.
  change 0 with (inject_Z 0). rewrite <- Zlt_Qlt.
  apply Z.pow_pos_nonneg; lia.
Qed.

#[global] Instance py_round_comp : Proper (Qeq ==> eq ==> Qeq) py_round.
Proof.
  intros x y E n ? <-. unfold py_round.
  assert (H : x * inject_Z (10 ^ Z.of_nat n) == y * inject_Z (10 ^ Z.of_nat n))
    by (rewrite E; reflexivity).
  now rewrite (round_half_even_comp _ _ H).
Qed.

Lemma py_round_Z z n : py_round (inject_Z z) n == inject_Z z.
Proof.
  unfold py_round. pose proof (scale_pos n) as P.
  rewrite <- inject_Z_mult, round_half_even_Z, inject_Z_mult.
  field. lra.
Qed.

Lemma py_round_nonneg x n : 0 <= x -> 0 <= py_round x n.
Proof.
  intros H. unfold py_round. pose proof (scale_pos n) as P.
  apply Qle_shift_div_l; [assumption|].
  assert (R : (0 <= round_half_even (x * inject_Z (10 ^ Z.of_nat n)))%Z).
  { apply round_half_even_ge. change (inject_Z 0) with 0. nra. }
  rewrite Zle_Qle in R. change (inject_Z 0) with 0 in R. lra.
Qed.

Lemma py_round_le x z n : x <= inject_Z z -> py_round x n <= inject_Z z.
Proof.
  intros H. unfold py_round. pose proof (scale_pos n) as P.
  apply Qle_shift_div_r; [assumption|].
  rewrite <- inject_Z_mult, <- Zle_Qle.
  apply round_half_even_le. rewrite inject_Z_mult. nra.
Qed.

Lemma py_round_nonpos x n : x <= 0 -> py_round x n <= 0.
Proof. intros H. apply (py_round_le x 0 n). exact H. Qed.

Lemma py_round_zero n x : x == 0 -> py_round x n == 0.
Proof. intros ->. apply (py_round_Z 0 n). Qed.

(** To two decimals a number is rounded below zero exactly when it is
    below minus half a cent. *)
Lemma py_round_2_neg x : py_round x 2 < 0 <-> x < -(1 # 200).
Proof.
  unfold py_round. change (inject_Z (10 ^ Z.of_nat 2)) with 100.
  pose proof (round_half_even_neg (x * 100)) as N.
  rewrite Zlt_Qlt in N. change (inject_Z 0) with 0 in N.
  split; intros H.
  - assert (K : inject_Z (round_half_even (x * 100)) < 0).
    { assert (E : inject_Z (round_half_even (x * 100))
                  == inject_Z (round_half_even (x * 100)) / 100 * 100)
        by (field; discriminate).
      rewrite E. lra. }
    apply N in K. lra.
  - apply Qlt_shift_div_r; [lra|].
    assert (K : x * 100 < -(1 # 2)) by lra.
    apply N in K. lra.
Qed.


(** ** Running programs *)

Lemma run_bind {A B} (m : Prog A) (f : A -> Prog B) clock w :
  run (bind m f) clock w =
  match run m clock w with
  | (inr a, w') => run (f a) clock w'
  | (inl e, w') => (inl e, w')
  end.
Proof.
  revert w. induction m as [a|e|k IH|k IH|g k IH]; intros w; simpl; auto.
Qed.

Lemma run_catch {A} (m : Prog A) (h : exn -> Prog A) clock w :
  run (catch m h) clock w =
  match run m clock w with
  | (inr a, w') => (inr a, w')
  | (inl e, w') => run (h e) clock w'
  end.
Proof.
  revert w. induction m as [a|e|k IH|k IH|g k IH]; intros w; simpl; auto.
Qed.

Lemma run_lift {A} (r : exn + A) clock w : run (lift r) clock w = (r, w).
Proof. destruct r; reflexivity. Qed.

(** The clock only moves forward. *)
Lemma run_reads {A} (m : Prog A) clock w :
  (reads w <= reads (snd (run m clock w)))%nat.
Proof.
  revert w. induction m as [a|e|k IH|k IH|g k IH]; intros w; simpl; auto.
  - specialize (IH (clock (reads w)) {| reads := S (reads w); engine := engine w |}).
    simpl in IH. lia.
  - apply (IH {| reads := reads w; engine := g (engine w) |}).
Qed.

(** A run depends on the clock only through the readings it consumed. *)
Lemma run_agree {A} (m : Prog A) c1 c2 w :
  agree c1 c2 (reads w) (reads (snd (run m c1 w))) ->
  run m c2 w = run m c1 w.
Proof.
  revert w. induction m as [a|e|k IH|k IH|g k IH]; intros w H; simpl in *; auto.
  - pose proof (run_reads (k (c1 (reads w))) c1
                  {| reads := S (reads w); engine := engine w |}) as M.
    simpl in M.
    rewrite <- (H (reads w)) by lia.
    apply IH. intros i Hi. apply H. simpl in Hi. lia.
Qed.

Lemma keeps_bind {A B} (m : Prog A) (f : A -> Prog B) :
  keeps_state m -> (forall a, keeps_state (f a)) -> keeps_state (bind m f).
Proof.
  intros Hm Hf. induction Hm; simpl; try constructor; auto.
Qed.

Lemma keeps_catch {A} (m : Prog A) (h : exn -> Prog A) :
  keeps_state m -> (forall e, keeps_state (h e)) -> keeps_state (catch m h).
Proof.
  intros Hm Hh. induction Hm; simpl; try constructor; auto.
Qed.

Lemma keeps_lift {A} (r : exn + A) : keeps_state (lift r).
Proof. destruct r; constructor. Qed.

Lemma keeps_for_each {X S} (xs : list X) (acc : S) body :
  (forall x a, keeps_state (body x a)) -> keeps_state (for_each xs acc body).
Proof.
  intros H. revert acc. induction xs as [|x xs IH]; intros acc; simpl.
  - constructor.
  - apply keeps_bind; auto.
Qed.

Lemma run_keeps_state {A} (m : Prog A) clock w :
  keeps_state m -> state (engine (snd (run m clock w))) = state (engine w).
Proof.
  intros H. revert w.
  induction H as [a|e|k _ IH|k _ IH|f k Hf _ IH]; intros w; simpl; auto.
  - rewrite IH. reflexivity.
  - rewrite IH. simpl. apply Hf.
Qed.

Create HintDb keeps.
#[global] Hint Resolve keeps_lift keeps_for_each : keeps.
#[global] Hint Constructors keeps_state : keeps.

Ltac keeps_step :=
  match goal with
  | |- keeps_state (bind _ _) => apply keeps_bind
  | |- keeps_state (pbind _ _) => apply keeps_bind
  | |- keeps_state (catch _ _) => apply keeps_catch
  | |- keeps_state (ret _) => apply keeps_ret
  | |- keeps_state (for_each _ _ _) => apply keeps_for_each
  | |- keeps_state (if ?b then _ else _) => destruct b
  | |- keeps_state (match ?x with _ => _ end) => destruct x
  | |- keeps_state (let _ := _ in _) => cbv zeta
  | |- forall _, _ => intro
  | |- keeps_state _ => solve [auto with keeps]
  | |- keeps_state _ => constructor
  | |- state _ = state _ => reflexivity
  end.
Ltac keeps := repeat keeps_step.

Lemma keeps_now_ : keeps_state now.
Proof. unfold now. keeps. Qed.
Lemma keeps_self_ : keeps_state self.
Proof. unfold self. keeps. Qed.
#[global] Hint Resolve keeps_now_ keeps_self_ : keeps.

Lemma keeps_get_income : keeps_state get_income.
Proof. unfold get_income, update, self. keeps. Qed.
Lemma keeps_get_expenses : keeps_state get_expenses.
Proof. unfold get_expenses, update, self. keeps. Qed.
Lemma keeps_get_overspending_data : keeps_state get_overspending_data.
Proof. unfold get_overspending_data, update, self. keeps. Qed.
Lemma keeps_get_stress_index : keeps_state get_stress_index.
Proof. unfold get_stress_index, update, self. keeps. Qed.
#[global] Hint Resolve keeps_get_income keeps_get_expenses
  keeps_get_overspending_data keeps_get_stress_index : keeps.

Lemma keeps_get_savings_goals : keeps_state get_savings_goals.
Proof.
  unfold get_savings_goals, load_goal, date_or_now, update. keeps.
Qed.

Lemma keeps_estimate : keeps_state estimate_monthly_savings_capacity.
Proof. unfold estimate_monthly_savings_capacity. keeps. Qed.
#[global] Hint Resolve keeps_get_savings_goals keeps_estimate : keeps.

Lemma keeps_calculate goal : keeps_state (calculate_goal_progress goal).
Proof. unfold calculate_goal_progress. keeps. Qed.
#[global] Hint Resolve keeps_calculate : keeps.

Lemma keeps_evaluate goal : keeps_state (evaluate_goal_feasibility goal).
Proof. unfold evaluate_goal_feasibility. keeps. Qed.
#[global] Hint Resolve keeps_evaluate : keeps.

Lemma keeps_detect : keeps_state detect_goal_conflicts.
Proof. unfold detect_goal_conflicts, split_by_term. keeps. Qed.

Lemma keeps_assign goal : keeps_state (assign_goal_health_status goal).
Proof. unfold assign_goal_health_status. keeps. Qed.

Lemma keeps_adjust : keeps_state adjust_goals_using_stress.
Proof. unfold adjust_goals_using_stress. keeps. Qed.

Lemma keeps_integrate : keeps_state integrate_overspending_impact.
Proof. unfold integrate_overspending_impact. keeps. Qed.

Lemma keeps_predict goal : keeps_state (predict_goal_completion goal).
Proof. unfold predict_goal_completion. keeps. Qed.
#[global] Hint Resolve keeps_detect keeps_assign keeps_adjust keeps_integrate
  keeps_predict : keeps.

Lemma keeps_delay goal : keeps_state (estimate_goal_delay goal).
Proof. unfold estimate_goal_delay. keeps. Qed.
#[global] Hint Resolve keeps_delay : keeps.

Lemma keeps_insights : keeps_state generate_savings_insights.
Proof. unfold generate_savings_insights, goal_insights. keeps. Qed.
#[global] Hint Resolve keeps_insights : keeps.

Lemma keeps_analyse item acc : keeps_state (analyse_goal item acc).
Proof. unfold analyse_goal. keeps. Qed.
#[global] Hint Resolve keeps_analyse : keeps.

(** ** Capacity estimator *)

Lemma run_estimate clock w :
  run estimate_monthly_savings_capacity clock w =
  (inr (capacity_of (state (engine w))),
   {| reads := reads w; engine := refreshed (engine w) |}).
Proof. reflexivity. Qed.

Lemma stress_multiplier_pos stress : 0 < stress_multiplier stress.
Proof.
  unfold stress_multiplier. destruct (get (is_stressed stress) false); [|lra].
  destruct (py_max_cases 0.6 (1.0 - get (stress_score stress) 0 / 100 * 0.4))
    as [[H ->]|[H ->]]; lra.
Qed.

(** C3, as stated, fails: with an income of 0.01 and no expenses the
    conservative band is 0.2 * 0.01 = 0.002 before rounding, and the
    estimator returns it rounded to two decimals, 0.0. *)
Lemma capacity_bands_counterexample :
  let st := income_only (1 # 100) 0 in
  exists cap w',
    run estimate_monthly_savings_capacity (fun _ => 0%Z) (world_of st)
    = (inr cap, w')
    /\ ~ conservative cap
         == py_max 0 (0.2 * snapshot_base st * snapshot_multiplier st).
Proof.
  eexists. eexists. split; [reflexivity|].
  vm_compute. discriminate.
Qed.

(** C3 (amended): for every snapshot the estimator returns the four bands,
    each one its coefficient (0.2, 0.4, 0.7, 1.0) times the base times the
    stress multiplier, floored at 0 and rounded to two decimals, hence never
    negative, with the flags telling whether stress lowered the multiplier
    and whether overspending is active; for an income of 50000 and expenses
    of 45000 without stress or overspending it returns a base capacity of
    5000 and the bands 1000, 2000, 3500 and 5000. *)
Theorem capacity_bands clock w :
  let st := state (engine w) in
  let base := snapshot_base st in
  let mult := snapshot_multiplier st in
  exists cap w',
    run estimate_monthly_savings_capacity clock w = (inr cap, w')
    /\ conservative cap == py_round (py_max 0 (0.2 * base * mult)) 2
    /\ moderate cap == py_round (py_max 0 (0.4 * base * mult)) 2
    /\ aggressive cap == py_round (py_max 0 (0.7 * base * mult)) 2
    /\ maximum cap == py_round (py_max 0 (1.0 * base * mult)) 2
    /\ 0 <= conservative cap /\ 0 <= moderate cap
    /\ 0 <= aggressive cap /\ 0 <= maximum cap
    /\ (stress_adjusted cap = true <-> mult < 1)
    /\ overspending_impact cap = get (is_overspending (read_overspending st)) false
    /\ (income_monthly_income (read_income st) == 50000 ->
        expense_monthly_total (read_expenses st) == 45000 ->
        get (is_stressed (read_stress st)) false = false ->
        get (is_overspending (read_overspending st)) false = false ->
        base_capacity cap == 5000 /\ conservative cap == 1000
        /\ moderate cap == 2000 /\ aggressive cap == 3500
        /\ maximum cap == 5000).
Proof.
  intros st base mult. rewrite run_estimate.
  eexists. eexists. split; [reflexivity|].
  unfold capacity_of, capacity_estimate.
  cbn [conservative moderate aggressive maximum base_capacity stress_adjusted
       overspending_impact].
  fold st. change (capacity_base _ _ _) with base.
  change (stress_multiplier _) with mult.
  assert (band : forall c, py_round (py_max 0 (base * c * mult)) 2
                           == py_round (py_max 0 (c * base * mult)) 2).
  { intros c. apply py_round_comp; [|reflexivity].
    apply py_max_comp; [reflexivity | ring]. }
  assert (top : py_round (py_max 0 (base * mult)) 2
                == py_round (py_max 0 (1.0 * base * mult)) 2).
  { apply py_round_comp; [|reflexivity].
    apply py_max_comp; [reflexivity | ring]. }
  assert (floor : forall x, 0 <= py_round (py_max 0 x) 2).
  { intros x. apply py_round_nonneg, py_max_nonneg. }
  split; [exact (band 0.2)|]. split; [exact (band 0.4)|].
  split; [exact (band 0.7)|]. split; [exact top|].
  split; [apply floor|]. split; [apply floor|].
  split; [apply floor|]. split; [apply floor|].
  split; [|split].
  - split; intros H; [apply ltb_true in H | apply ltb_true]; lra.
  - reflexivity.
  - intros Hincome Hexpenses Hcalm Hwithin.
    assert (B : base == 5000).
    { unfold base, snapshot_base, capacity_base. rewrite Hwithin. lra. }
    assert (M : mult = 1.0).
    { unfold mult, snapshot_multiplier, stress_multiplier. now rewrite Hcalm. }
    rewrite M, B. repeat split; reflexivity.
Qed.

Lemma capacity_bands_witness :
  exists cap,
    fst (run estimate_monthly_savings_capacity (fun _ => 0%Z)
           (world_of (income_only 50000 45000))) = inr cap
    /\ maximum cap == 5000.
Proof.
  destruct (capacity_bands (fun _ => 0%Z) (world_of (income_only 50000 45000)))
    as (cap & w' & Hrun & _ & _ & _ & _ & _ & _ & _ & _ & _ & _ & Hscenario).
  exists cap. split.
  - rewrite Hrun. reflexivity.
  - apply Hscenario; reflexivity.
Defined.

(** ** The report *)

Lemma run_bind_inr {A B} (m : Prog A) (f : A -> Prog B) clock w b w' :
  run (bind m f) clock w = (inr b, w') ->
  exists a w1, run m clock w = (inr a, w1) /\ run (f a) clock w1 = (inr b, w').
Proof.
  rewrite run_bind. destruct (run m clock w) as [[e|a] w1]; intros H.
  - discriminate.
  - now exists a, w1.
Qed.

Lemma run_keeps {A} (m : Prog A) clock w r w' :
  keeps_state m -> run m clock w = (r, w') ->
  state (engine w') = state (engine w).
Proof.
  intros K H. pose proof (run_keeps_state m clock w K) as E.
  now rewrite H in E.
Qed.

Lemma run_bind_self {B} (f : Engine -> Prog B) clock w :
  run (bind self f) clock w = run (f (engine w)) clock w.
Proof. reflexivity. Qed.

Lemma run_bind_now {B} (f : datetime -> Prog B) clock w :
  run (bind now f) clock w =
  run (f (clock (reads w))) clock {| reads := S (reads w); engine := engine w |}.
Proof. reflexivity. Qed.

(** The pass as shipped: [load_state] installs the placeholder, so no goal
    is loaded, the clock is read once, for the timestamp, and nothing the
    engine held before reaches the report. *)
Lemma run_report clock w :
  fst (run get_savings_goals_report clock w)
  = fst (run get_savings_goals_report (stopped (clock (reads w)))
           (world_of empty_state))
  /\ reads (snd (run get_savings_goals_report clock w)) = S (reads w).
Proof. split; vm_compute; reflexivity. Qed.

Lemma run_report_shape d :
  match fst (run get_savings_goals_report (stopped d) (world_of empty_state)) with
  | inr rep =>
      savings_capacity rep = capacity_of placeholder_state
      /\ report_generated rep = d
      /\ report_goals rep = []
  | inl _ => False
  end.
Proof. vm_compute. repeat split. Qed.

Lemma run_report_returns d :
  exists rep,
    fst (run get_savings_goals_report (stopped d) (world_of empty_state))
    = inr rep
    /\ savings_capacity rep = capacity_of placeholder_state
    /\ report_generated rep = d
    /\ report_goals rep = [].
Proof.
  pose proof (run_report_shape d) as H.
  destruct (fst (run get_savings_goals_report (stopped d)
                   (world_of empty_state))) as [e|rep]; [contradiction|].
  now exists rep.
Qed.

Lemma floored_band_zero base coef mult :
  base < 0 -> 0 < coef -> 0 < mult ->
  py_round (py_max 0 (base * coef * mult)) 2 == 0.
Proof.
  intros Hb Hc Hm. apply py_round_zero.
  assert (P : 0 < coef * mult) by (apply Qmult_lt_0_compat; assumption).
  assert (N : base * coef * mult < 0) by nra.
  destruct (py_max_cases 0 (base * coef * mult)) as [[H ->]|[H ->]]; lra.
Qed.

(** C10, as stated, fails twice.  With no income and expenses of 0.001
    the base is negative and the [base_capacity] returned is that base
    rounded to two decimals, which is 0 and not below it.  And an engine
    whose state has expenses of 100 and no income estimates a base capacity
    of -100, while the report it produces shows 0: the pass reloads the
    placeholder state first. *)
Lemma negative_base_counterexample :
  (let st := income_only 0 (1 # 1000) in
   snapshot_base st < 0
   /\ exists cap w',
        run estimate_monthly_savings_capacity (fun _ => 0%Z) (world_of st)
        = (inr cap, w')
        /\ ~ base_capacity cap < 0)
  /\ (let w := world_of (income_only 0 100) in
      exists cap w' rep w'',
        run estimate_monthly_savings_capacity (fun _ => 0%Z) w = (inr cap, w')
        /\ base_capacity cap == -100
        /\ run get_savings_goals_report (fun _ => 0%Z) w = (inr rep, w'')
        /\ base_capacity (savings_capacity rep) == 0
        /\ savings_capacity rep <> cap).
Proof.
  split.
  - split; [reflexivity|].
    eexists. eexists. split; [reflexivity|].
    vm_compute. discriminate.
  - cbv zeta. rewrite run_estimate.
    destruct (run get_savings_goals_report (fun _ => 0%Z)
                (world_of (income_only 0 100))) as [[e|rep] w''] eqn:R;
      [vm_compute in R; discriminate|].
    do 2 eexists. exists rep, w''. split; [reflexivity|].
    split; [vm_compute; reflexivity|]. split; [reflexivity|].
    vm_compute in R. injection R as <- _.
    split; [vm_compute; reflexivity | vm_compute; discriminate].
Qed.

(** C10 (amended): when expenses plus the overspending adjustment exceed
    income, the estimator returns as [base_capacity] the base itself, not
    floored, rounded to two decimals: it is never positive and it is
    strictly negative exactly when the shortfall is more than half a cent,
    while the four bands are 0.  The public report does not expose it: the
    pass starts by loading the placeholder state, and the [savings_capacity]
    section of the report it returns is the estimate for that placeholder,
    with a base capacity of 0. *)
Theorem negative_base_exposed clock w :
  let st := state (engine w) in
  snapshot_base st < 0 ->
  exists cap w',
    run estimate_monthly_savings_capacity clock w = (inr cap, w')
    /\ base_capacity cap = py_round (snapshot_base st) 2
    /\ base_capacity cap <= 0
    /\ (base_capacity cap < 0 <-> snapshot_base st < -(1 # 200))
    /\ conservative cap == 0 /\ moderate cap == 0
    /\ aggressive cap == 0 /\ maximum cap == 0
    /\ exists rep,
         fst (run get_savings_goals_report clock w) = inr rep
         /\ savings_capacity rep = capacity_of placeholder_state
         /\ base_capacity (savings_capacity rep) == 0.
Proof.
  intros st Hneg. rewrite run_estimate. fold st.
  eexists. eexists. split; [reflexivity|].
  pose proof (stress_multiplier_pos (read_stress st)) as M.
  unfold capacity_of at 1 2 3 4 5 6 7, capacity_estimate.
  cbn [conservative moderate aggressive maximum base_capacity].
  change (capacity_base _ _ _) with (snapshot_base st).
  repeat match goal with |- _ /\ _ => split end.
  - reflexivity.
  - apply py_round_nonpos. lra.
  - apply py_round_2_neg.
  - apply floored_band_zero; [assumption | lra | assumption].
  - apply floored_band_zero; [assumption | lra | assumption].
  - apply floored_band_zero; [assumption | lra | assumption].
  - apply Qeq_trans
      with (y := py_round (py_max 0 (snapshot_base st * 1
                                     * stress_multiplier (read_stress st))) 2).
    + apply py_round_comp; [apply py_max_comp; [reflexivity | ring] | reflexivity].
    + apply floored_band_zero; [assumption | lra | assumption].
  - destruct (run_report clock w) as [R _]. rewrite R.
    destruct (run_report_returns (clock (reads w))) as (rep & E & C & _).
    exists rep. split; [exact E|]. split; [exact C|].
    rewrite C. vm_compute. reflexivity.
Qed.

Lemma negative_base_exposed_witness :
  exists cap,
    fst (run estimate_monthly_savings_capacity (fun _ => 0%Z)
           (world_of (income_only 0 100))) = inr cap
    /\ base_capacity cap < 0.
Proof.
  destruct (negative_base_exposed (fun _ => 0%Z) (world_of (income_only 0 100)))
    as (cap & w' & Hrun & _ & _ & Hneg & _).
  - reflexivity.
  - exists cap. split.
    + rewrite Hrun. reflexivity.
    + apply Hneg. reflexivity.
Defined.

(** ** Progress calculator *)

Lemma run_calculate goal created target clock w :
  well_dated goal created target ->
  run (calculate_goal_progress goal) clock w =
  (inr (goal_progress goal created (clock (reads w)) target),
   {| reads := S (reads w); engine := engine w |}).
Proof.
  intros [Hc Ht]. unfold calculate_goal_progress.
  rewrite Hc, Ht. destruct target; reflexivity.
Qed.

Lemma well_dated_goal_with a b c created due :
  well_dated (goal_with a b c created due) created due.
Proof. split; [reflexivity | destruct due; reflexivity]. Qed.

(** C6, as stated, fails: a goal created in January 2024 and due in
    February 2024, looked at in April 2024, has 3 months elapsed out of 1,
    and the percentage returned is 300. *)
Lemma time_elapsed_counterexample :
  exists p w',
    run (calculate_goal_progress
           (goal_with 1000 0 50 (mk_datetime 2024 1 1)
              (Some (mk_datetime 2024 2 1))))
        (stopped (mk_datetime 2024 4 15)) (world_of empty_state)
    = (inr p, w')
    /\ ~ time_elapsed_percentage p <= 100.
Proof.
  eexists. eexists. split; [reflexivity|].
  vm_compute. intros H. apply H. reflexivity.
Qed.

(** C6 (amended): for every goal with parseable dates the progress is
    computed, its [time_elapsed_percentage] is never negative, is 0 when the
    goal has no target date, and is at most 100 as long as the months
    elapsed do not exceed the months between the creation date and the
    target date; past the deadline it is not capped. *)
Theorem time_elapsed_bounds goal created target clock w :
  well_dated goal created target ->
  exists p w',
    run (calculate_goal_progress goal) clock w = (inr p, w')
    /\ 0 <= time_elapsed_percentage p
    /\ (truthy (target_date goal) = false -> time_elapsed_percentage p == 0)
    /\ (forall due, target = Some due ->
        (months_elapsed p <= Z.max 1 (month_span created due))%Z ->
        time_elapsed_percentage p <= 100).
Proof.
  intros W. rewrite (run_calculate _ _ _ _ _ W).
  eexists. eexists. split; [reflexivity|].
  unfold goal_progress. cbn [time_elapsed_percentage months_elapsed].
  set (elapsed := Z.max 1 (month_span created (clock (reads w)))).
  assert (E : 1 <= inject_Z elapsed).
  { change 1 with (inject_Z 1). rewrite <- Zle_Qle. subst elapsed. lia. }
  repeat split.
  - apply py_round_nonneg. destruct target as [due|]; [|lra].
    set (total := Z.max 1 (month_span created due)).
    assert (T : 1 <= inject_Z total).
    { change 1 with (inject_Z 1). rewrite <- Zle_Qle. subst total. lia. }
    destruct (0 <? total)%Z; [|lra].
    apply Qmult_le_0_compat; [|lra].
    apply Qle_shift_div_l; lra.
  - intros F. destruct W as [_ Ht]. unfold if_set in Ht. rewrite F in Ht.
    destruct target; [discriminate|]. apply py_round_zero. reflexivity.
  - intros due -> L.
    set (total := Z.max 1 (month_span created due)) in *.
    assert (T : 1 <= inject_Z total).
    { change 1 with (inject_Z 1). rewrite <- Zle_Qle. subst total. lia. }
    apply (py_round_le _ 100 2).
    destruct (0 <? total)%Z; [|change (inject_Z 100) with 100; lra].
    rewrite Zle_Qle in L. change (inject_Z 100) with 100.
    assert (D : inject_Z elapsed / inject_Z total <= 1).
    { apply Qle_shift_div_r; lra. }
    lra.
Qed.

Lemma time_elapsed_bounds_witness :
  exists p,
    fst (run (calculate_goal_progress
                (goal_with 120000 60000 10000 (mk_datetime 2024 1 10)
                   (Some (mk_datetime 2025 1 10))))
             (stopped (mk_datetime 2024 7 20)) (world_of empty_state)) = inr p
    /\ time_elapsed_percentage p <= 100.
Proof.
  destruct (time_elapsed_bounds
              (goal_with 120000 60000 10000 (mk_datetime 2024 1 10)
                 (Some (mk_datetime 2025 1 10)))
              (mk_datetime 2024 1 10) (Some (mk_datetime 2025 1 10))
              (stopped (mk_datetime 2024 7 20)) (world_of empty_state)
              (well_dated_goal_with _ _ _ _ _))
    as (p & w' & Hrun & _ & _ & Hle).
  exists p. split.
  - rewrite Hrun. reflexivity.
  - apply (Hle _ eq_refl).
    rewrite run_calculate with (created := mk_datetime 2024 1 10)
      (target := Some (mk_datetime 2025 1 10)) in Hrun
      by apply well_dated_goal_with.
    inversion Hrun. vm_compute. discriminate.
Defined.

(** ** Completion predictor *)

Lemma run_get_overspending_data clock w :
  run get_overspending_data clock w =
  (inr (read_overspending (state (engine w))),
   {| reads := reads w;
      engine := set_overspending_data (read_overspending (state (engine w)))
                  (engine w) |}).
Proof. reflexivity. Qed.

Lemma run_get_stress_index clock w :
  run get_stress_index clock w =
  (inr (read_stress (state (engine w))),
   {| reads := reads w;
      engine := set_stress_data (read_stress (state (engine w))) (engine w) |}).
Proof. reflexivity. Qed.

(** C7, as stated, fails: a goal with nothing saved whose creation date
    is not an ISO date has a zero historical rate, and the predictor raises
    ValueError for it, when the progress calculator parses that date. *)
Lemma zero_rate_counterexample :
  let goal :=
    {| goal_id := "g1"; name := "Trip"; goal_type := "vacation";
       target_amount := 90000; current_amount := 0;
       target_date := None; priority := "medium";
       monthly_contribution := 5000;
       created_date := NotIso "not-a-date";
       last_updated := NotIso "not-a-date";
       description := None |} in
  current_amount goal == 0
  /\ fst (run (predict_goal_completion goal) (stopped (mk_datetime 2024 4 2))
            (world_of empty_state)) = inl ValueError.
Proof. split; reflexivity. Qed.

(** C7 (amended): for every goal with parseable dates whose historical
    contribution rate is zero (nothing saved), the prediction is the bounded
    sentinel of 999 months with no predicted date and a success probability
    of 0.1, not an unbounded value or an error. *)
Theorem zero_rate_prediction goal created target clock w :
  well_dated goal created target ->
  current_amount goal == 0 ->
  exists r w',
    run (predict_goal_completion goal) clock w = (inr r, w')
    /\ months_to_completion r == 999
    /\ predicted_completion_date r = None
    /\ success_probability r <= 0.1.
Proof.
  intros W Z. unfold predict_goal_completion.
  rewrite run_bind, (run_calculate _ _ _ _ _ W).
  rewrite run_bind, run_get_overspending_data.
  rewrite run_bind, run_get_stress_index.
  cbn [months_elapsed goal_progress].
  set (elapsed := Z.max 1 (month_span created (clock (reads w)))).
  assert (E : (0 <? elapsed)%Z = true) by (apply Z.ltb_lt; subst elapsed; lia).
  rewrite E.
  match goal with
  | |- context [gtb ?rate 0] =>
      assert (R : gtb rate 0 = false)
  end.
  { apply gtb_false.
    assert (Q0 : current_amount goal / inject_Z elapsed == 0).
    { unfold Qdiv. rewrite Z. ring. }
    rewrite Q0.
    repeat match goal with |- context [if ?b then _ else _] => destruct b end;
      lra. }
  rewrite R.
  eexists. eexists. split; [reflexivity|].
  cbn [months_to_completion predicted_completion_date success_probability].
  repeat split.
  discriminate.
Qed.

Lemma zero_rate_prediction_witness :
  exists r,
    fst (run (predict_goal_completion
                (goal_with 90000 0 5000 (mk_datetime 2024 1 10) None))
             (stopped (mk_datetime 2024 4 2)) (world_of empty_state)) = inr r
    /\ months_to_completion r == 999.
Proof.
  destruct (zero_rate_prediction
              (goal_with 90000 0 5000 (mk_datetime 2024 1 10) None)
              (mk_datetime 2024 1 10) None
              (stopped (mk_datetime 2024 4 2)) (world_of empty_state)
              (well_dated_goal_with _ _ _ _ _) (Qeq_refl 0))
    as (r & w' & Hrun & Hmonths & _).
  exists r. split.
  - rewrite Hrun. reflexivity.
  - exact Hmonths.
Defined.

(** ** Feasibility evaluator *)

Lemma check_capacity_over required capacity progress :
  maximum capacity < required ->
  verdict_feasible (check_capacity required capacity progress) = false
  /\ verdict_score (check_capacity required capacity progress) = (100 - 50)%Z.
Proof.
  intros H. unfold check_capacity.
  apply gtb_true in H. rewrite H. split; reflexivity.
Qed.

Lemma check_stress_spec stress v :
  verdict_feasible (check_stress stress v) = verdict_feasible v
  /\ verdict_score (check_stress stress v)
     = (verdict_score v - (if get (is_stressed stress) false then 15 else 0))%Z.
Proof.
  unfold check_stress. destruct (get (is_stressed stress) false); simpl;
    split; auto; lia.
Qed.

Lemma check_overspending_spec overspending v :
  verdict_feasible (check_overspending overspending v) = verdict_feasible v
  /\ verdict_score (check_overspending overspending v)
     = (verdict_score v
        - (if get (is_overspending overspending) false then 15 else 0))%Z.
Proof.
  unfold check_overspending.
  destruct (get (is_overspending overspending) false); simpl; split; auto; lia.
Qed.

Lemma check_history_spec progress v :
  verdict_feasible (check_history progress v) = verdict_feasible v
  /\ verdict_score (check_history progress v)
     = (verdict_score v - (if ltb (variance progress) (-20) then 20 else 0))%Z.
Proof.
  unfold check_history.
  destruct (ltb (variance progress) (-20)); simpl; split; auto; lia.
Qed.

(** Check 5 never turns an infeasible verdict feasible. *)
Lemma check_timeline_spec goal capacity progress v v' :
  check_timeline goal capacity progress v = inr v' ->
  (verdict_feasible v = false -> verdict_feasible v' = false)
  /\ verdict_score v'
     = (verdict_score v
        - (if timeline_fires goal capacity progress then 30 else 0))%Z.
Proof.
  unfold check_timeline, timeline_fires.
  destruct (if_set (target_date goal)) as [t|];
    [destruct (months_remaining progress) as [m|]|].
  - destruct ((m <? 3)%Z && gtb _ _).
    + destruct (py_div _ _); [discriminate|].
      intros H. inversion H. simpl. split; auto.
    + intros H. inversion H. split; auto; lia.
  - intros H. inversion H. split; auto; lia.
  - intros H. inversion H. split; auto; lia.
Qed.

(** C5: when the monthly amount the evaluator computes for the goal is above
    the maximum band, the result it returns is infeasible and its score is
    100 less 50, less what the later checks take off, floored at 0. *)
Theorem infeasible_over_maximum goal clock w capacity w1 progress w2 r w3 :
  run estimate_monthly_savings_capacity clock w = (inr capacity, w1) ->
  run (calculate_goal_progress goal) clock w1 = (inr progress, w2) ->
  run (evaluate_goal_feasibility goal) clock w = (inr r, w3) ->
  maximum capacity < required_monthly_for goal progress ->
  is_feasible r = false
  /\ feasibility_score r
     = Z.max 0 (100 - 50 - later_penalties goal capacity progress (engine w2))
  /\ (feasibility_score r <= 50)%Z.
Proof.
  intros Hcap Hprog Heval Hover.
  unfold evaluate_goal_feasibility in Heval.
  rewrite run_bind, Hcap, run_bind, Hprog, run_bind_self in Heval.
  rewrite run_bind, run_lift in Heval.
  destruct (check_timeline _ _ _ _) as [e|v] eqn:T; [discriminate|].
  cbn [ret Monad_Prog run] in Heval. injection Heval as Hr _. subst r.
  cbn [is_feasible feasibility_score].
  destruct (check_timeline_spec _ _ _ _ _ T) as [F5 S5].
  match type of T with
  | check_timeline _ _ _ (check_history _ (check_overspending ?o (check_stress ?s ?c))) = _ =>
      destruct (check_history_spec progress (check_overspending o (check_stress s c)))
        as [F4 S4];
      destruct (check_overspending_spec o (check_stress s c)) as [F3 S3];
      destruct (check_stress_spec s c) as [F2 S2]
  end.
  destruct (check_capacity_over _ _ progress Hover) as [F1 S1].
  assert (K : verdict_score v
              = (100 - 50 - later_penalties goal capacity progress (engine w2))%Z).
  { rewrite S5, S4, S3, S2, S1. unfold later_penalties. lia. }
  split; [|split].
  - apply F5. congruence.
  - now rewrite K.
  - rewrite K. unfold later_penalties.
    repeat match goal with |- context [if ?b then _ else _] => destruct b end;
      lia.
Qed.

Lemma infeasible_over_maximum_witness :
  exists r,
    fst (run (evaluate_goal_feasibility
                (goal_with 100000 0 2000 (mk_datetime 2024 1 10)
                   (Some (mk_datetime 2024 8 10))))
             (stopped (mk_datetime 2024 3 5))
             (world_of (income_only 50000 45000))) = inr r
    /\ is_feasible r = false.
Proof.
  set (goal := goal_with 100000 0 2000 (mk_datetime 2024 1 10)
                 (Some (mk_datetime 2024 8 10))).
  set (clock := stopped (mk_datetime 2024 3 5)).
  set (w := world_of (income_only 50000 45000)).
  destruct (run estimate_monthly_savings_capacity clock w)
    as [[e|capacity] w1] eqn:Hcap; [vm_compute in Hcap; discriminate|].
  destruct (run (calculate_goal_progress goal) clock w1)
    as [[e|progress] w2] eqn:Hprog.
  { rewrite run_estimate in Hcap. inversion Hcap; subst.
    vm_compute in Hprog. discriminate. }
  destruct (run (evaluate_goal_feasibility goal) clock w)
    as [[e|r] w3] eqn:Heval; [vm_compute in Heval; discriminate|].
  exists r. split; [reflexivity|].
  apply (infeasible_over_maximum goal clock w capacity w1 progress w2 r w3
           Hcap Hprog Heval).
  rewrite run_estimate in Hcap. inversion Hcap; subst.
  rewrite (run_calculate goal (mk_datetime 2024 1 10)
             (Some (mk_datetime 2024 8 10))) in Hprog
    by apply well_dated_goal_with.
  inversion Hprog; subst. vm_compute. reflexivity.
Defined.

(** A deadline in the current month leaves 0 months: the evaluator then
    asks for the stated contribution, whatever amount remains. *)
Lemma required_monthly_due_now goal progress :
  months_remaining progress = Some 0%Z ->
  required_monthly_for goal progress = monthly_contribution goal.
Proof.
  intros H. unfold required_monthly_for. rewrite H.
  destruct (if_set (target_date goal)); reflexivity.
Qed.

(** C4 at a goal due in the current month: 1000 remain and 0 months are
    left, and the evaluator returns the stated contribution of 50 as the
    required monthly amount, not the 1000 that are due now. *)
Lemma due_now_required_monthly :
  exists progress w1 r w2,
    run (calculate_goal_progress
           (goal_with 1000 0 50 (mk_datetime 2024 1 10)
              (Some (mk_datetime 2024 3 31))))
        (stopped (mk_datetime 2024 3 15)) (world_of (income_only 50000 45000))
    = (inr progress, w1)
    /\ months_remaining progress = Some 0%Z
    /\ run (evaluate_goal_feasibility
              (goal_with 1000 0 50 (mk_datetime 2024 1 10)
                 (Some (mk_datetime 2024 3 31))))
           (stopped (mk_datetime 2024 3 15))
           (world_of (income_only 50000 45000))
       = (inr r, w2)
    /\ required_monthly r == 50
    /\ ~ required_monthly r == 1000.
Proof.
  do 4 eexists. split; [reflexivity|]. split; [reflexivity|].
  split; [vm_compute; reflexivity|].
  split; vm_compute; congruence.
Qed.

(** C1 at zero capacity: income equals expenses, so every band is 0; for a
    goal due in the current month with 1000 still missing the evaluator
    divides by the moderate band and raises. *)
Lemma zero_capacity_feasibility_raises :
  moderate (capacity_of (income_only 50000 50000)) == 0
  /\ fst (run (evaluate_goal_feasibility
                 (goal_with 1000 0 50 (mk_datetime 2024 1 10)
                    (Some (mk_datetime 2024 3 31))))
              (stopped (mk_datetime 2024 3 15))
              (world_of (income_only 50000 50000)))
     = inl ZeroDivisionError.
Proof. split; vm_compute; reflexivity. Qed.

(** ** Conflict detector *)

(** What holds of the accumulator at the start of a loop, and that every
    turn that returns keeps, holds of what the loop returns. *)
Lemma for_each_invariant {X S} (P : S -> Prop) (body : X -> S -> Prog S)
  clock xs :
  (forall x acc r w w',
      P acc -> run (body x acc) clock w = (inr r, w') -> P r) ->
  forall acc r w w',
    P acc -> run (for_each xs acc body) clock w = (inr r, w') -> P r.
Proof.
  intros Hbody. induction xs as [|x xs IH]; intros acc r w w' Hacc Hrun.
  - cbn in Hrun. inversion Hrun. now subst.
  - cbn [for_each] in Hrun. apply run_bind_inr in Hrun.
    destruct Hrun as (acc' & w1 & H1 & H2).
    eapply IH; [|exact H2]. eapply Hbody; eassumption.
Qed.

(** Conflict soundness, for the calls that return: the overload conflict,
    of high severity and naming every goal, is in the list. *)
Lemma overload_detected_when_returned clock w cs w' :
  let capacity := capacity_of (state (engine w)) in
  let total := py_sum (map monthly_contribution (values (goals (engine w)))) in
  maximum capacity < total ->
  run detect_goal_conflicts clock w = (inr cs, w') ->
  In (capacity_overload total capacity (keys (goals (engine w)))) cs.
Proof.
  intros capacity total Hover Hrun. subst capacity total.
  unfold detect_goal_conflicts in Hrun. rewrite run_bind_self in Hrun.
  destruct (goals (engine w)) as [|g gs] eqn:G.
  { exfalso.
    pose proof (py_round_nonneg
                  (py_max 0 (snapshot_base (state (engine w))
                             * snapshot_multiplier (state (engine w)))) 2
                  (py_max_nonneg _)) as N.
    unfold capacity_of, capacity_estimate in Hover. cbn in Hover.
    unfold snapshot_base, snapshot_multiplier in N. cbn in N. lra. }
  rewrite <- G in Hover |- *.
  rewrite run_bind, run_estimate, run_bind_self in Hrun.
  cbn [engine goals refreshed set_overspending_data set_stress_data
       set_expense_data set_income_data state] in Hrun.
  apply gtb_true in Hover. rewrite Hover in Hrun.
  rewrite run_bind_self in Hrun.
  apply run_bind_inr in Hrun. destruct Hrun as (terms & w1 & _ & Hrun).
  rewrite run_bind_self in Hrun.
  revert Hrun. apply for_each_invariant.
  - intros goal acc r w2 w3 Hacc Hbody.
    apply run_bind_inr in Hbody. destruct Hbody as (f & w4 & _ & Hbody).
    destruct (negb (is_feasible f)); cbn in Hbody; inversion Hbody; subst;
      auto using in_or_app.
  - repeat match goal with
    | |- In _ (if ?b then _ else _) => destruct b
    | |- In _ (match ?l with [] => _ | _ :: _ => _ end) => destruct l
    | |- In _ (_ ++ _) => apply in_or_app; left
    | |- In ?x [?x] => left; reflexivity
    end.
Qed.

(** C2 at zero capacity: the goal asks for 50 a month and the maximum band
    is 0, so the overload conflict is due; the fourth check evaluates the
    goal's feasibility, which divides by the moderate band, and the whole
    detection raises. *)
Lemma overload_detection_raises :
  let goal := goal_with 1000 0 50 (mk_datetime 2024 1 10)
                (Some (mk_datetime 2024 3 31)) in
  let w := world_with (income_only 50000 50000) [goal] in
  maximum (capacity_of (state (engine w)))
  < py_sum (map monthly_contribution (values (goals (engine w))))
  /\ fst (run detect_goal_conflicts (stopped (mk_datetime 2024 3 15)) w)
     = inl ZeroDivisionError.
Proof. split; vm_compute; reflexivity. Qed.

(** ** Goal store adapter *)

Lemma dict_set_fresh {V} (d : dict V) k v :
  ~ In k (keys d) -> dict_set d k v = d ++ [(k, v)].
Proof.
  induction d as [|[k' v'] d IH]; intros H; simpl; [reflexivity|].
  simpl in H. destruct (String.eqb_spec k' k) as [E|E].
  - exfalso. apply H. now left.
  - rewrite IH; [reflexivity|]. intros I. apply H. now right.
Qed.

Lemma run_load_goal_ok gid info clock w :
  numeric_ok info = true ->
  run (load_goal gid info) clock w =
  (inr (normalized gid info (clock (reads w)) (clock (S (reads w)))),
   {| reads := S (S (reads w)); engine := engine w |}).
Proof.
  unfold numeric_ok, load_goal, normalized, float_or_zero, value_or_zero.
  destruct (info_target_amount info) as [[t|]|];
    destruct (info_current_amount info) as [[c|]|];
    destruct (info_monthly_contribution info) as [[m|]|];
    simpl; intros H; try discriminate; reflexivity.
Qed.

Lemma run_load_goal_bad gid info clock w :
  numeric_ok info = false ->
  run (load_goal gid info) clock w = (inl ValueError, w).
Proof.
  unfold numeric_ok, load_goal, float_or_zero.
  destruct (info_target_amount info) as [[t|]|];
    destruct (info_current_amount info) as [[c|]|];
    destruct (info_monthly_contribution info) as [[m|]|];
    simpl; intros H; try discriminate; reflexivity.
Qed.

Lemma keys_normalized_all records clock n :
  keys (normalized_all records clock n) = keys records.
Proof.
  revert n. induction records as [|[gid info] rest IH]; intros n; simpl;
    [reflexivity|]. f_equal. apply IH.
Qed.

(** The loop of the adapter: it stores the goals of the loadable records
    after those already stored, and raises at the first record it cannot
    load. *)
Lemma run_load_loop records : forall clock w,
  NoDup (keys (goals (engine w)) ++ keys records) ->
  run (for_each records tt
         (fun item _ =>
            goal <- load_goal (fst item) (snd item) ;;
            update (fun e => set_goals (dict_set (goals e) (fst item) goal) e)))
      clock w =
  ((if forallb numeric_ok (values records) then inr tt else inl ValueError),
   {| reads := reads w + 2 * List.length (loadable records);
      engine := set_goals
                  (goals (engine w)
                   ++ normalized_all (loadable records) clock (reads w))
                  (engine w) |}).
Proof.
  induction records as [|[gid info] rest IH]; intros clock w ND.
  - destruct w as [n e]. destruct e. simpl. rewrite app_nil_r, Nat.add_0_r.
    reflexivity.
  - cbn [for_each values map snd fst forallb loadable].
    rewrite run_bind, run_bind.
    destruct (numeric_ok info) eqn:OK.
    + rewrite run_load_goal_ok by assumption.
      cbn [update run bind Monad_Prog pbind engine reads].
      rewrite dict_set_fresh.
      2:{ simpl in ND. apply NoDup_remove_2 in ND.
          intros I. apply ND. apply in_or_app. now left. }
      rewrite IH.
      2:{ cbn [engine goals set_goals]. unfold keys in *. rewrite map_app.
          simpl in *. rewrite <- app_assoc. exact ND. }
      cbn [engine goals set_goals reads andb normalized_all List.length].
      rewrite <- app_assoc. simpl.
      unfold values. f_equal. f_equal. lia.
    + rewrite run_load_goal_bad by assumption.
      destruct w as [n e]. destruct e. simpl.
      rewrite app_nil_r, Nat.add_0_r. reflexivity.
Qed.

(** C8, as stated, fails: for a single record whose target amount is the
    text "abc" the adapter returns no goal at all, instead of one goal with
    a target amount of 0. *)
Lemma goal_store_adapter_counterexample :
  let records := [("g1"%string, info_with_target (NotNumeric "abc"))] in
  exists loaded w',
    run get_savings_goals (stopped (mk_datetime 2024 3 15))
        (world_of (goals_only records)) = (inr loaded, w')
    /\ List.length loaded <> List.length records
    /\ loaded <> normalized_all records (stopped (mk_datetime 2024 3 15)) 0.
Proof.
  eexists. eexists. split; [reflexivity|]. split; discriminate.
Qed.

(** What the adapter leaves in the engine: the goals of the records before
    the first one it cannot load. *)
Lemma run_get_savings_goals clock w :
  let records := get (state_savings_goals (state (engine w))) [] in
  NoDup (keys records) ->
  exists w',
    run get_savings_goals clock w
    = (inr (if forallb numeric_ok (values records)
            then normalized_all records clock (reads w) else []), w')
    /\ goals (engine w') = normalized_all (loadable records) clock (reads w).
Proof.
  intros records ND. unfold get_savings_goals.
  rewrite run_catch, run_bind_self. fold records.
  rewrite run_bind.
  cbn [update run].
  rewrite run_bind, run_load_loop by (cbn; exact ND).
  cbn [engine goals set_goals reads app].
  destruct (forallb numeric_ok (values records)) eqn:OK.
  - rewrite run_bind_self. cbn [ret Monad_Prog run engine goals set_goals].
    assert (L : loadable records = records).
    { clear ND. induction records as [|[gid info] rest IH]; [reflexivity|].
      simpl in *. apply andb_true_iff in OK. destruct OK as [O1 O2].
      rewrite O1, IH; auto. }
    rewrite L. eexists. split; reflexivity.
  - cbn [ret Monad_Prog run engine goals set_goals].
    eexists. split; reflexivity.
Qed.

(** C8 (amended): the adapter never raises.  When [float] accepts every
    numeric field it returns, and stores in the engine, one goal per record,
    missing numeric fields 0, a missing priority medium, a missing type
    custom and missing dates the clock readings taken for the record.  When
    some numeric field is unparseable it returns the empty mapping: the
    field is not coerced to 0 and no record is returned. *)
Theorem goal_store_adapter clock w :
  let records := get (state_savings_goals (state (engine w))) [] in
  NoDup (keys records) ->
  exists loaded w',
    run get_savings_goals clock w = (inr loaded, w')
    /\ (forallb numeric_ok (values records) = true ->
        loaded = normalized_all records clock (reads w)
        /\ goals (engine w') = loaded
        /\ keys loaded = keys records)
    /\ (forallb numeric_ok (values records) = false -> loaded = []).
Proof.
  intros records ND.
  destruct (run_get_savings_goals clock w ND) as (w' & Hrun & Hgoals).
  fold records in Hrun, Hgoals.
  eexists. exists w'. split; [exact Hrun|].
  destruct (forallb numeric_ok (values records)) eqn:OK.
  - split; [|discriminate]. intros _.
    assert (L : loadable records = records).
    { clear - OK. induction records as [|[gid info] rest IH]; [reflexivity|].
      simpl in *. apply andb_true_iff in OK. destruct OK as [O1 O2].
      rewrite O1, IH; auto. }
    rewrite L in Hgoals.
    repeat split; [exact Hgoals | apply keys_normalized_all].
  - split; [discriminate | reflexivity].
Qed.

Lemma goal_store_adapter_witness :
  exists loaded,
    fst (run get_savings_goals (stopped (mk_datetime 2024 3 15))
           (world_of (goals_only [("g1"%string, info_with_target (Numeric 1000));
                                  ("g2"%string, info_with_target (Numeric 500))])))
    = inr loaded
    /\ keys loaded = ["g1"%string; "g2"%string].
Proof.
  destruct (goal_store_adapter (stopped (mk_datetime 2024 3 15))
              (world_of (goals_only [("g1"%string, info_with_target (Numeric 1000));
                                     ("g2"%string, info_with_target (Numeric 500))])))
    as (loaded & w' & Hrun & Hok & _).
  - cbn. repeat constructor; simpl; intuition discriminate.
  - exists loaded. split.
    + rewrite Hrun. reflexivity.
    + apply Hok. reflexivity.
Defined.

(** ** Determinism of the report *)

(** C9: the pass captures "now" once: it reads the clock exactly once, for
    the timestamp of the report.  Two passes whose single readings are the
    same instant return the same report, whatever the two engines held
    before and whatever the clocks show at other times: the pass reloads the
    state and the goals, and nothing else enters the report. *)
Theorem report_deterministic c1 c2 w1 w2 :
  c1 (reads w1) = c2 (reads w2) ->
  exists rep,
    fst (run get_savings_goals_report c1 w1) = inr rep
    /\ fst (run get_savings_goals_report c2 w2) = inr rep
    /\ report_generated rep = c1 (reads w1)
    /\ reads (snd (run get_savings_goals_report c1 w1)) = S (reads w1)
    /\ reads (snd (run get_savings_goals_report c2 w2)) = S (reads w2).
Proof.
  intros H.
  destruct (run_report c1 w1) as [R1 N1].
  destruct (run_report c2 w2) as [R2 N2].
  destruct (run_report_returns (c1 (reads w1))) as (rep & E & _ & G & _).
  exists rep. rewrite R1, R2, <- H, E. repeat split; assumption.
Qed.

Lemma report_deterministic_witness :
  fst (run get_savings_goals_report (stopped (mk_datetime 2024 3 15))
         (world_of empty_state))
  = fst (run get_savings_goals_report (bumped (mk_datetime 2024 3 15) 3)
           (world_with (income_only 0 100)
              [goal_with 1000 0 50 (mk_datetime 2024 1 10) None])).
Proof.
  destruct (report_deterministic
              (stopped (mk_datetime 2024 3 15))
              (bumped (mk_datetime 2024 3 15) 3)
              (world_of empty_state)
              (world_with (income_only 0 100)
                 [goal_with 1000 0 50 (mk_datetime 2024 1 10) None])
              eq_refl)
    as (rep & H1 & H2 & _).
  rewrite H1, H2. reflexivity.
Defined.

(* ===================================================================== *)
(** * Further properties of the engine *)
(* ===================================================================== *)

(** ** Monotone rounding *)

Lemma round_half_even_mono x y :
  x <= y -> (round_half_even x <= round_half_even y)%Z.
Proof.
  intros H.
  pose proof (round_half_even_floor x) as Bx.
  pose proof (round_half_even_floor y) as By.
  pose proof (Qfloor_resp_le _ _ H) as F.
  destruct (Z.eq_dec (Qfloor x) (Qfloor y)) as [E|E]; [|lia].
  destruct (Z.eq_dec (round_half_even x) (Qfloor x)) as [Ex|Ex]; [lia|].
  destruct (Z.eq_dec (round_half_even y) (Qfloor y)) as [Ey|Ey]; [|lia].
  assert (Ux : round_half_even x = (Qfloor x + 1)%Z) by lia.
  pose proof (round_half_even_up x Ux) as U.
  pose proof (round_half_even_down y Ey) as D.
  rewrite <- E in D.
  assert (Q : x == y) by lra.
  rewrite (round_half_even_comp _ _ Q) in Ux. lia.
Qed.

Lemma py_round_mono x y n : x <= y -> py_round x n <= py_round y n.
Proof.
  intros H. unfold py_round. pose proof (scale_pos n) as P.
  apply Qle_shift_div_l; [assumption|].
  set (s := inject_Z (10 ^ Z.of_nat n)) in *.
  assert (E : inject_Z (round_half_even (x * s)) / s * s
              == inject_Z (round_half_even (x * s))) by (field; lra).
  rewrite E. rewrite <- Zle_Qle. apply round_half_even_mono. nra.
Qed.

Lemma py_max_mono a b c : b <= c -> py_max a b <= py_max a c.
Proof.
  intros H.
  destruct (py_max_cases a b) as [[? ->]|[? ->]];
    destruct (py_max_cases a c) as [[? ->]|[? ->]]; lra.
Qed.

Lemma py_min_le_r a b : py_min a b <= b.
Proof. destruct (py_min_cases a b) as [[? ->]|[? ->]]; lra. Qed.

Lemma py_min_le_r_first a b : py_min a b <= a.
Proof. destruct (py_min_cases a b) as [[? ->]|[? ->]]; lra. Qed.

Lemma py_min_mono a b c : a <= b -> py_min a c <= py_min b c.
Proof.
  intros H.
  destruct (py_min_cases a c) as [[? ->]|[? ->]];
    destruct (py_min_cases b c) as [[? ->]|[? ->]]; lra.
Qed.

#[global] Instance gtb_comp : Proper (Qeq ==> Qeq ==> eq) gtb.
Proof. intros x x' Hx y y' Hy. unfold gtb. now apply ltb_comp. Qed.

(** ** Capacity estimator, further *)

(** X1: the stress multiplier is never below 0.6; it is at most 1 when the
    stress score is not negative, and the estimate is flagged as stress
    adjusted exactly when the stress signal is active with a positive
    score. *)
Theorem stress_multiplier_range clock w :
  let stress := read_stress (state (engine w)) in
  exists cap w',
    run estimate_monthly_savings_capacity clock w = (inr cap, w')
    /\ 0.6 <= stress_multiplier stress
    /\ (0 <= get (stress_score stress) 0 -> stress_multiplier stress <= 1)
    /\ (stress_adjusted cap = true
        <-> get (is_stressed stress) false = true
            /\ 0 < get (stress_score stress) 0).
Proof.
  intros stress. rewrite run_estimate. eexists. eexists.
  split; [reflexivity|].
  unfold capacity_of, capacity_estimate. cbn [stress_adjusted].
  fold stress. unfold stress_multiplier.
  assert (flag : forall m : Q,
             (ltb m 1.0 = true <-> m < 1)).
  { intros m. rewrite ltb_true. split; intros; lra. }
  change (get (stress_score stress) 0 / 100)
    with (get (stress_score stress) 0 * (1 # 100)).
  destruct (get (is_stressed stress) false).
  - destruct (py_max_cases 0.6
                (1.0 - get (stress_score stress) 0 * (1 # 100) * 0.4))
      as [[H ->]|[H ->]]; (split; [lra|]); (split; [intros; lra|]);
      rewrite flag; (split; [intros L; split; [reflexivity | lra]
                            | intros [_ L]; lra]).
  - split; [lra|]. split; [intros; lra|]. rewrite flag.
    split; [intros L; lra | intros [L _]; discriminate].
Qed.

Lemma stress_multiplier_range_witness :
  stress_multiplier (stressed 50) <= 1.
Proof.
  destruct (stress_multiplier_range (stopped 0%Z)
              (world_of (signals 50000 45000 None (Some (stressed 50)))))
    as (cap & w' & _ & _ & Hle & _).
  apply Hle. vm_compute. discriminate.
Defined.

Lemma floored_band_mono base mult c1 c2 :
  0 < mult -> 0 <= c1 <= c2 ->
  py_round (py_max 0 (base * c1 * mult)) 2
  <= py_round (py_max 0 (base * c2 * mult)) 2.
Proof.
  intros M [C1 C2]. apply py_round_mono.
  assert (K1 : 0 <= c1 * mult) by (apply Qmult_le_0_compat; lra).
  assert (K : c1 * mult <= c2 * mult) by (apply Qmult_le_compat_r; lra).
  assert (E1 : base * c1 * mult == base * (c1 * mult)) by ring.
  assert (E2 : base * c2 * mult == base * (c2 * mult)) by ring.
  rewrite (py_max_comp 0 0 (Qeq_refl 0) _ _ E1).
  rewrite (py_max_comp 0 0 (Qeq_refl 0) _ _ E2).
  generalize dependent (c1 * mult). generalize dependent (c2 * mult).
  intros k2 _ k1 K1 K _.
  destruct (Qlt_le_dec base 0) as [N|P].
  - assert (A : base * k1 <= 0) by nra.
    assert (B : base * k2 <= 0) by nra.
    destruct (py_max_cases 0 (base * k1)) as [[? ->]|[? ->]];
      destruct (py_max_cases 0 (base * k2)) as [[? ->]|[? ->]]; lra.
  - apply py_max_mono. nra.
Qed.

(** X2: for every snapshot the four bands are ordered: conservative at
    most moderate, at most aggressive, at most maximum. *)
Theorem capacity_bands_ordered clock w :
  exists cap w',
    run estimate_monthly_savings_capacity clock w = (inr cap, w')
    /\ conservative cap <= moderate cap
    /\ moderate cap <= aggressive cap
    /\ aggressive cap <= maximum cap.
Proof.
  rewrite run_estimate. eexists. eexists. split; [reflexivity|].
  unfold capacity_of, capacity_estimate.
  cbn [conservative moderate aggressive maximum].
  pose proof (stress_multiplier_pos (read_stress (state (engine w)))) as M.
  repeat split.
  - apply floored_band_mono; [assumption | lra].
  - apply floored_band_mono; [assumption | lra].
  - eapply Qle_trans; [apply (floored_band_mono _ _ 0.7 1 M); lra|].
    apply py_round_mono, py_max_mono.
    match goal with |- ?b * 1 * ?m <= _ => assert (E : b * 1 * m == b * m) by ring end.
    rewrite E. lra.
Qed.

(** ** Progress calculator, further *)

(** X3: the completion percentage is at most 100, is 0 for a target amount
    of 0 or less (no division by zero), is not negative when the amount
    saved is not, and is exactly 100 once the amount saved reaches a
    positive target. *)
Theorem completion_percentage_bounds goal created target clock w :
  well_dated goal created target ->
  exists p w',
    run (calculate_goal_progress goal) clock w = (inr p, w')
    /\ completion_percentage p <= 100
    /\ (target_amount goal <= 0 -> completion_percentage p == 0)
    /\ (0 <= current_amount goal -> 0 <= completion_percentage p)
    /\ (0 < target_amount goal -> target_amount goal <= current_amount goal ->
        completion_percentage p == 100).
Proof.
  intros W. rewrite (run_calculate _ _ _ _ _ W).
  eexists. eexists. split; [reflexivity|].
  unfold goal_progress. cbn [completion_percentage].
  repeat split.
  - apply (py_round_le _ 100 2). apply py_min_le_r.
  - intros T. apply gtb_false in T. rewrite T.
    apply py_round_zero. reflexivity.
  - intros C. apply py_round_nonneg.
    destruct (gtb (target_amount goal) 0) eqn:T.
    + apply gtb_true in T.
      assert (R : 0 <= current_amount goal / target_amount goal).
      { apply Qle_shift_div_l; lra. }
      destruct (py_min_cases (current_amount goal / target_amount goal * 100) 100)
        as [[? ->]|[? ->]]; lra.
    + vm_compute. discriminate.
  - intros T C. assert (G := T). apply gtb_true in G. rewrite G.
    assert (R : 1 <= current_amount goal / target_amount goal).
    { apply Qle_shift_div_l; lra. }
    destruct (py_min_cases (current_amount goal / target_amount goal * 100) 100)
      as [[? ->]|[? E]].
    + reflexivity.
    + rewrite E.
      assert (Q : current_amount goal / target_amount goal * 100 == 100) by lra.
      rewrite Q. reflexivity.
Qed.

Lemma completion_percentage_bounds_witness :
  exists p,
    fst (run (calculate_goal_progress
                (goal_with 0 500 50 (mk_datetime 2024 1 10) None))
             (stopped (mk_datetime 2024 4 2)) (world_of empty_state)) = inr p
    /\ completion_percentage p == 0.
Proof.
  destruct (completion_percentage_bounds
              (goal_with 0 500 50 (mk_datetime 2024 1 10) None)
              (mk_datetime 2024 1 10) None
              (stopped (mk_datetime 2024 4 2)) (world_of empty_state)
              (well_dated_goal_with _ _ _ _ _))
    as (p & w' & Hrun & _ & Hzero & _).
  exists p. split.
  - rewrite Hrun. reflexivity.
  - apply Hzero. vm_compute. discriminate.
Defined.

(** X4: with the same target amount, a goal with more saved never has a
    smaller completion percentage. *)
Theorem completion_monotone g1 g2 c1 t1 c2 t2 clock1 w1 clock2 w2 :
  well_dated g1 c1 t1 -> well_dated g2 c2 t2 ->
  target_amount g1 == target_amount g2 ->
  current_amount g1 <= current_amount g2 ->
  exists p1 p2 w1' w2',
    run (calculate_goal_progress g1) clock1 w1 = (inr p1, w1')
    /\ run (calculate_goal_progress g2) clock2 w2 = (inr p2, w2')
    /\ completion_percentage p1 <= completion_percentage p2.
Proof.
  intros W1 W2 T C.
  rewrite (run_calculate _ _ _ _ _ W1), (run_calculate _ _ _ _ _ W2).
  do 4 eexists. split; [reflexivity|]. split; [reflexivity|].
  unfold goal_progress. cbn [completion_percentage].
  apply py_round_mono, py_min_mono.
  rewrite (gtb_comp _ _ T 0 0 (Qeq_refl 0)).
  destruct (gtb (target_amount g2) 0) eqn:G; [|lra].
  apply gtb_true in G.
  assert (D : current_amount g1 / target_amount g1
              <= current_amount g2 / target_amount g2).
  { rewrite T. unfold Qdiv.
    apply Qmult_le_compat_r; [assumption|].
    apply Qlt_le_weak, Qinv_lt_0_compat. assumption. }
  lra.
Qed.

Lemma completion_monotone_witness :
  exists p1 p2,
    fst (run (calculate_goal_progress
                (goal_with 1000 200 50 (mk_datetime 2024 1 10) None))
             (stopped (mk_datetime 2024 4 2)) (world_of empty_state)) = inr p1
    /\ fst (run (calculate_goal_progress
                   (goal_with 1000 700 50 (mk_datetime 2024 1 10) None))
                (stopped (mk_datetime 2024 4 2)) (world_of empty_state)) = inr p2
    /\ completion_percentage p1 <= completion_percentage p2.
Proof.
  destruct (completion_monotone
              (goal_with 1000 200 50 (mk_datetime 2024 1 10) None)
              (goal_with 1000 700 50 (mk_datetime 2024 1 10) None)
              (mk_datetime 2024 1 10) None (mk_datetime 2024 1 10) None
              (stopped (mk_datetime 2024 4 2)) (world_of empty_state)
              (stopped (mk_datetime 2024 4 2)) (world_of empty_state)
              (well_dated_goal_with _ _ _ _ _) (well_dated_goal_with _ _ _ _ _))
    as (p1 & p2 & w1' & w2' & H1 & H2 & Hle).
  - reflexivity.
  - vm_compute. discriminate.
  - exists p1, p2. rewrite H1, H2. repeat split. exact Hle.
Defined.

(** X5: at least one month is always counted as elapsed; the months
    remaining are reported exactly for the goals with a target date, and are
    never negative. *)
Theorem months_bounds goal created target clock w :
  well_dated goal created target ->
  exists p w',
    run (calculate_goal_progress goal) clock w = (inr p, w')
    /\ (1 <= months_elapsed p)%Z
    /\ (truthy (target_date goal) = false <-> months_remaining p = None)
    /\ (forall m, months_remaining p = Some m -> (0 <= m)%Z).
Proof.
  intros W. rewrite (run_calculate _ _ _ _ _ W).
  eexists. eexists. split; [reflexivity|].
  unfold goal_progress. cbn [months_elapsed months_remaining].
  destruct W as [_ Ht]. unfold if_set in Ht.
  repeat split.
  - lia.
  - intros F. rewrite F in Ht. destruct target; [discriminate | reflexivity].
  - intros N. destruct target; [discriminate|].
    destruct (truthy (target_date goal)) eqn:T; [|reflexivity].
    simpl in Ht. rewrite Ht in T. discriminate.
  - intros m. destruct target; intros E; inversion E. lia.
Qed.

Lemma months_bounds_witness :
  exists p,
    fst (run (calculate_goal_progress
                (goal_with 1000 200 50 (mk_datetime 2024 4 1) None))
             (stopped (mk_datetime 2024 4 2)) (world_of empty_state)) = inr p
    /\ (1 <= months_elapsed p)%Z.
Proof.
  destruct (months_bounds
              (goal_with 1000 200 50 (mk_datetime 2024 4 1) None)
              (mk_datetime 2024 4 1) None
              (stopped (mk_datetime 2024 4 2)) (world_of empty_state)
              (well_dated_goal_with _ _ _ _ _))
    as (p & w' & Hrun & Hle & _).
  exists p. rewrite Hrun. split; [reflexivity | exact Hle].
Defined.

(** X6: the date errors of the progress calculator.  An unparseable
    creation date raises ValueError before the clock is read; an unparseable
    target date raises it after one reading; an empty target date string is
    no error: the goal is treated as having no deadline. *)
Theorem progress_date_errors goal clock w :
  (forall s, created_date goal = NotIso s ->
     run (calculate_goal_progress goal) clock w = (inl ValueError, w))
  /\ (forall created s,
        created_date goal = IsoDate created ->
        target_date goal = Some (NotIso s) -> s <> EmptyString ->
        run (calculate_goal_progress goal) clock w
        = (inl ValueError, {| reads := S (reads w); engine := engine w |}))
  /\ (forall created,
        created_date goal = IsoDate created ->
        target_date goal = Some (NotIso EmptyString) ->
        exists p w',
          run (calculate_goal_progress goal) clock w = (inr p, w')
          /\ months_remaining p = None
          /\ time_elapsed_percentage p == 0).
Proof.
  unfold calculate_goal_progress. repeat split.
  - intros s E. rewrite E. reflexivity.
  - intros created s E T N. rewrite E, T.
    destruct s; [congruence | reflexivity].
  - intros created E T. rewrite E, T.
    eexists. eexists. split; [reflexivity|].
    split; [reflexivity|]. unfold goal_progress. cbn [time_elapsed_percentage].
    apply py_round_zero. reflexivity.
Qed.

Lemma progress_date_errors_witness :
  fst (run (calculate_goal_progress
              {| goal_id := "g1"; name := "Trip"; goal_type := "vacation";
                 target_amount := 1000; current_amount := 0;
                 target_date := None; priority := "medium";
                 monthly_contribution := 50;
                 created_date := NotIso "yesterday";
                 last_updated := NotIso "yesterday";
                 description := None |})
           (stopped (mk_datetime 2024 4 2)) (world_of empty_state))
  = inl ValueError.
Proof.
  destruct (progress_date_errors
              {| goal_id := "g1"; name := "Trip"; goal_type := "vacation";
                 target_amount := 1000; current_amount := 0;
                 target_date := None; priority := "medium";
                 monthly_contribution := 50;
                 created_date := NotIso "yesterday";
                 last_updated := NotIso "yesterday";
                 description := None |}
              (stopped (mk_datetime 2024 4 2)) (world_of empty_state))
    as [H _].
  rewrite (H "yesterday"%string eq_refl). reflexivity.
Defined.

(** ** Feasibility evaluator, further *)

Lemma evaluate_returned goal clock w r w3 :
  run (evaluate_goal_feasibility goal) clock w = (inr r, w3) ->
  exists progress v,
    run (calculate_goal_progress goal) clock
        {| reads := reads w; engine := refreshed (engine w) |}
    = (inr progress, w3)
    /\ check_timeline goal (capacity_of (state (engine w))) progress
         (verdict_before_timeline goal (capacity_of (state (engine w)))
            progress (engine w3)) = inr v
    /\ is_feasible r = verdict_feasible v
    /\ feasibility_score r = Z.max 0 (verdict_score v)
    /\ recommendations r = verdict_recommendations v.
Proof.
  intros H. unfold evaluate_goal_feasibility in H.
  rewrite run_bind, run_estimate, run_bind in H.
  destruct (run (calculate_goal_progress goal) clock _)
    as [[e|progress] w2] eqn:P; [discriminate|].
  rewrite run_bind_self, run_bind, run_lift in H.
  fold (verdict_before_timeline goal (capacity_of (state (engine w))) progress
          (engine w2)) in H.
  destruct (check_timeline _ _ _ _) as [e|v] eqn:T; [discriminate|].
  cbn [ret Monad_Prog run] in H. injection H as Hr Hw. subst r w3.
  exists progress, v. repeat split; assumption.
Qed.

Lemma run_evaluate goal created target clock w :
  well_dated goal created target ->
  let cap := capacity_of (state (engine w)) in
  let progress := goal_progress goal created (clock (reads w)) target in
  let w2 := {| reads := S (reads w); engine := refreshed (engine w) |} in
  match check_timeline goal cap progress
          (verdict_before_timeline goal cap progress (refreshed (engine w))) with
  | inl ex => run (evaluate_goal_feasibility goal) clock w = (inl ex, w2)
  | inr v =>
      exists r,
        run (evaluate_goal_feasibility goal) clock w = (inr r, w2)
        /\ is_feasible r = verdict_feasible v
        /\ feasibility_score r = Z.max 0 (verdict_score v)
        /\ recommendations r = verdict_recommendations v
  end.
Proof.
  intros W cap progress w2. unfold evaluate_goal_feasibility.
  rewrite run_bind, run_estimate, run_bind.
  rewrite (run_calculate _ _ _ _ _ W).
  rewrite run_bind_self, run_bind, run_lift.
  cbn [reads engine]. fold cap. fold progress.
  fold (verdict_before_timeline goal cap progress (refreshed (engine w))).
  destruct (check_timeline _ _ _ _) as [e|v]; [reflexivity|].
  eexists. split; [reflexivity|]. repeat split.
Qed.

Lemma check_timeline_raises goal capacity progress v :
  (exists ex, check_timeline goal capacity progress v = inl ex)
  <-> timeline_fires goal capacity progress = true /\ moderate capacity == 0.
Proof.
  unfold check_timeline, timeline_fires, py_div.
  destruct (if_set (target_date goal)) as [t|];
    [destruct (months_remaining progress) as [m|]|].
  - destruct ((m <? 3)%Z && gtb _ _).
    + destruct (Qeq_bool (moderate capacity) 0) eqn:E.
      * apply Qeq_bool_iff in E. split; [auto | eexists; reflexivity].
      * apply Qeq_bool_neq in E. split; [intros [ex H]; discriminate|].
        intros [_ Z]. contradiction.
    + split; [intros [ex H]; discriminate | intros [H _]; discriminate].
  - split; [intros [ex H]; discriminate | intros [H _]; discriminate].
  - split; [intros [ex H]; discriminate | intros [H _]; discriminate].
Qed.

Lemma check_timeline_exn goal capacity progress v ex :
  check_timeline goal capacity progress v = inl ex -> ex = ZeroDivisionError.
Proof.
  unfold check_timeline, py_div.
  destruct (if_set (target_date goal)) as [t|];
    [destruct (months_remaining progress) as [m|]|]; try discriminate.
  destruct ((m <? 3)%Z && gtb _ _); [|discriminate].
  destruct (Qeq_bool (moderate capacity) 0); [|discriminate].
  intros H. now inversion H.
Qed.

(** X7: for a goal with parseable dates the feasibility evaluator raises
    exactly when the timeline check fires (a deadline less than 3 months
    away with more than 3 times the maximum band missing) while the moderate
    band is 0, and what it raises is ZeroDivisionError; in every other case
    it returns a result. *)
Theorem feasibility_raises_iff goal created target clock w :
  well_dated goal created target ->
  let cap := capacity_of (state (engine w)) in
  let progress := goal_progress goal created (clock (reads w)) target in
  (timeline_fires goal cap progress = true /\ moderate cap == 0 ->
   fst (run (evaluate_goal_feasibility goal) clock w) = inl ZeroDivisionError)
  /\ (~ (timeline_fires goal cap progress = true /\ moderate cap == 0) ->
      exists r, fst (run (evaluate_goal_feasibility goal) clock w) = inr r).
Proof.
  intros W cap progress.
  pose proof (run_evaluate goal created target clock w W) as R.
  cbv zeta in R. fold cap in R. fold progress in R.
  pose proof (check_timeline_raises goal cap progress
                (verdict_before_timeline goal cap progress
                   (refreshed (engine w)))) as I.
  destruct (check_timeline _ _ _ _) as [ex|v] eqn:T.
  - rewrite R. split.
    + intros _. simpl. f_equal. eapply check_timeline_exn. exact T.
    + intros N. exfalso. apply N, I. now exists ex.
  - destruct R as (r & R & _). rewrite R. split.
    + intros F. apply I in F. destruct F as [ex F]. discriminate.
    + intros _. now exists r.
Qed.

Lemma feasibility_raises_iff_witness :
  exists r,
    fst (run (evaluate_goal_feasibility
                (goal_with 1000 0 50 (mk_datetime 2024 1 10)
                   (Some (mk_datetime 2024 3 31))))
             (stopped (mk_datetime 2024 3 15))
             (world_of (income_only 50000 45000))) = inr r.
Proof.
  apply (feasibility_raises_iff
           (goal_with 1000 0 50 (mk_datetime 2024 1 10)
              (Some (mk_datetime 2024 3 31)))
           (mk_datetime 2024 1 10) (Some (mk_datetime 2024 3 31))
           (stopped (mk_datetime 2024 3 15))
           (world_of (income_only 50000 45000))
           (well_dated_goal_with _ _ _ _ _)).
  intros [F _]. vm_compute in F. discriminate.
Defined.

Lemma check_capacity_verdict required capacity progress :
  verdict_feasible (check_capacity required capacity progress)
  = negb (gtb required (maximum capacity)).
Proof.
  unfold check_capacity. destruct (gtb required (maximum capacity));
    [reflexivity|].
  destruct (gtb required (aggressive capacity)); [reflexivity|].
  destruct (gtb required (moderate capacity)); reflexivity.
Qed.

Lemma verdict_before_timeline_feasible goal capacity progress e :
  verdict_feasible (verdict_before_timeline goal capacity progress e)
  = negb (gtb (required_monthly_for goal progress) (maximum capacity)).
Proof.
  unfold verdict_before_timeline.
  rewrite (proj1 (check_history_spec _ _)),
    (proj1 (check_overspending_spec _ _)), (proj1 (check_stress_spec _ _)).
  apply check_capacity_verdict.
Qed.

Lemma check_timeline_verdict goal capacity progress v v' :
  check_timeline goal capacity progress v = inr v' ->
  verdict_feasible v'
  = verdict_feasible v && negb (timeline_fires goal capacity progress).
Proof.
  unfold check_timeline, timeline_fires.
  destruct (if_set (target_date goal)) as [t|];
    [destruct (months_remaining progress) as [m|]|].
  - destruct ((m <? 3)%Z && gtb _ _).
    + destruct (py_div _ _); [discriminate|].
      intros H. inversion H. simpl. now rewrite andb_false_r.
    + intros H. inversion H. now rewrite andb_true_r.
  - intros H. inversion H. now rewrite andb_true_r.
  - intros H. inversion H. now rewrite andb_true_r.
Qed.

(** X8: a returned result is infeasible exactly when the required monthly
    amount is above the maximum band or the timeline check fires. *)
Theorem feasibility_verdict goal created target clock w r w' :
  well_dated goal created target ->
  run (evaluate_goal_feasibility goal) clock w = (inr r, w') ->
  let cap := capacity_of (state (engine w)) in
  let progress := goal_progress goal created (clock (reads w)) target in
  is_feasible r = false
  <-> maximum cap < required_monthly_for goal progress
      \/ timeline_fires goal cap progress = true.
Proof.
  intros W H cap progress.
  apply evaluate_returned in H.
  destruct H as (p & v & P & T & F & _).
  rewrite (run_calculate _ _ _ _ _ W) in P. cbn [reads] in P.
  injection P as Hp Hw. subst p. fold cap progress in T.
  rewrite F, (check_timeline_verdict _ _ _ _ _ T),
    verdict_before_timeline_feasible.
  rewrite andb_false_iff, !negb_false_iff, gtb_true. reflexivity.
Qed.

Lemma feasibility_verdict_witness :
  exists r,
    fst (run (evaluate_goal_feasibility
                (goal_with 100000 0 2000 (mk_datetime 2024 1 10)
                   (Some (mk_datetime 2024 8 10))))
             (stopped (mk_datetime 2024 3 5))
             (world_of (income_only 50000 45000))) = inr r
    /\ is_feasible r = false.
Proof.
  destruct (run (evaluate_goal_feasibility
                   (goal_with 100000 0 2000 (mk_datetime 2024 1 10)
                      (Some (mk_datetime 2024 8 10))))
                (stopped (mk_datetime 2024 3 5))
                (world_of (income_only 50000 45000)))
    as [[e|r] w'] eqn:H; [vm_compute in H; discriminate|].
  exists r. split; [reflexivity|].
  apply (feasibility_verdict _ _ _ _ _ _ _ (well_dated_goal_with _ _ _ _ _) H).
  left. vm_compute. reflexivity.
Defined.

Lemma sound_check_capacity required capacity progress :
  sound (check_capacity required capacity progress).
Proof.
  unfold sound, check_capacity.
  destruct (gtb required (maximum capacity)); simpl.
  - split; [lia|]. intros _. split; [lia | discriminate].
  - destruct (gtb required (aggressive capacity)); simpl;
      [split; [lia | discriminate]|].
    destruct (gtb required (moderate capacity)); simpl;
      split; try lia; discriminate.
Qed.

Lemma sound_step v v' :
  sound v ->
  verdict_feasible v' = verdict_feasible v ->
  (verdict_score v' <= verdict_score v)%Z ->
  (verdict_recommendations v <> [] -> verdict_recommendations v' <> []) ->
  sound v'.
Proof.
  intros [S1 S2] F L R. split; [lia|].
  rewrite F. intros I. destruct (S2 I). split; [lia | auto].
Qed.

Lemma app_not_nil {A} (l l' : list A) : l <> [] -> l ++ l' <> [].
Proof. destruct l; [congruence | discriminate]. Qed.

Lemma sound_check_stress stress v : sound v -> sound (check_stress stress v).
Proof.
  intros S. apply (sound_step v); [assumption | apply check_stress_spec | |].
  - rewrite (proj2 (check_stress_spec stress v)).
    destruct (get (is_stressed stress) false); lia.
  - unfold check_stress. destruct (get (is_stressed stress) false);
      [simpl; apply app_not_nil | auto].
Qed.

Lemma sound_check_overspending overspending v :
  sound v -> sound (check_overspending overspending v).
Proof.
  intros S.
  apply (sound_step v); [assumption | apply check_overspending_spec | |].
  - rewrite (proj2 (check_overspending_spec overspending v)).
    destruct (get (is_overspending overspending) false); lia.
  - unfold check_overspending.
    destruct (get (is_overspending overspending) false);
      [simpl; apply app_not_nil | auto].
Qed.

Lemma sound_check_history progress v :
  sound v -> sound (check_history progress v).
Proof.
  intros S. apply (sound_step v); [assumption | apply check_history_spec | |].
  - rewrite (proj2 (check_history_spec progress v)).
    destruct (ltb (variance progress) (-20)); lia.
  - unfold check_history. destruct (ltb (variance progress) (-20));
      [simpl; apply app_not_nil | auto].
Qed.

Lemma sound_before_timeline goal capacity progress e :
  sound (verdict_before_timeline goal capacity progress e).
Proof.
  unfold verdict_before_timeline.
  apply sound_check_history, sound_check_overspending, sound_check_stress,
    sound_check_capacity.
Qed.

Lemma sound_check_timeline goal capacity progress v v' :
  sound v -> check_timeline goal capacity progress v = inr v' -> sound v'.
Proof.
  intros [S1 S2]. unfold check_timeline.
  destruct (if_set (target_date goal)) as [t|];
    [destruct (months_remaining progress) as [m|]|];
    try (intros H; inversion H; subst; split; assumption).
  destruct ((m <? 3)%Z && gtb _ _);
    [|intros H; inversion H; subst; split; assumption].
  destruct (py_div _ _); [discriminate|].
  intros H. inversion H. unfold sound. simpl. split; [lia|].
  intros _. split; [lia|].
  destruct (verdict_recommendations v); discriminate.
Qed.

(** X9: every result the evaluator returns has a score between 0 and 100;
    an infeasible one scores at most 70 and carries at least one
    recommendation, so the callers' fallback text for a missing
    recommendation is never used. *)
Theorem feasibility_score_range goal clock w r w' :
  run (evaluate_goal_feasibility goal) clock w = (inr r, w') ->
  (0 <= feasibility_score r <= 100)%Z
  /\ (is_feasible r = false ->
      (feasibility_score r <= 70)%Z /\ recommendations r <> []).
Proof.
  intros H. apply evaluate_returned in H.
  destruct H as (p & v & _ & T & F & S & R).
  pose proof (sound_check_timeline _ _ _ _ _
                (sound_before_timeline _ _ _ _) T) as [S1 S2].
  rewrite F, S, R. split; [lia|].
  intros I. destruct (S2 I). split; [lia | assumption].
Qed.

Lemma feasibility_score_range_witness :
  exists r,
    fst (run (evaluate_goal_feasibility
                (goal_with 100000 0 2000 (mk_datetime 2024 1 10)
                   (Some (mk_datetime 2024 8 10))))
             (stopped (mk_datetime 2024 3 5))
             (world_of (income_only 50000 45000))) = inr r
    /\ (0 <= feasibility_score r <= 100)%Z.
Proof.
  destruct (run (evaluate_goal_feasibility
                   (goal_with 100000 0 2000 (mk_datetime 2024 1 10)
                      (Some (mk_datetime 2024 8 10))))
                (stopped (mk_datetime 2024 3 5))
                (world_of (income_only 50000 45000)))
    as [[e|r] w'] eqn:H; [vm_compute in H; discriminate|].
  exists r. split; [reflexivity|].
  apply (feasibility_score_range _ _ _ _ _ H).
Defined.

(** ** Stress adjustments *)

(** X10: the stress adjustment never raises and never reads the clock; it
    always recommends something; it never both freezes and reduces; without
    stress it does neither; only low-priority goals are frozen, and only
    goals of low or medium priority get a reduced contribution, which is
    half the stated one rounded to two decimals. *)
Theorem stress_adjustments_shape clock w :
  exists a w',
    run adjust_goals_using_stress clock w = (inr a, w')
    /\ reads w' = reads w
    /\ adjustments_recommendations a <> []
    /\ (frozen_goals a = [] \/ reduced_contributions a = [])
    /\ (stress_detected a = false ->
        frozen_goals a = [] /\ reduced_contributions a = [])
    /\ (forall f, In f (frozen_goals a) ->
        exists goal, In goal (values (goals (engine w)))
                     /\ priority goal = "low"%string
                     /\ frozen_goal_id f = goal_id goal)
    /\ (forall r, In r (reduced_contributions a) ->
        exists goal, In goal (values (goals (engine w)))
                     /\ (priority goal = "low"%string
                         \/ priority goal = "medium"%string)
                     /\ reduced_goal_id r = goal_id goal
                     /\ recommended_contribution r
                        = py_round (monthly_contribution goal * 0.5) 2).
Proof.
  unfold adjust_goals_using_stress.
  rewrite run_bind, run_get_stress_index.
  set (stress := read_stress (state (engine w))).
  destruct (get (is_stressed stress) false) eqn:D; cbn [negb].
  - rewrite run_bind_self. cbn [engine goals set_stress_data].
    destruct (gtb (get (stress_score stress) 0) 70);
      [|destruct (gtb (get (stress_score stress) 0) 40)];
      (eexists; eexists; split; [reflexivity|]);
      cbn [reads stress_detected adjustments_recommendations frozen_goals
           reduced_contributions];
      (split; [reflexivity|]); (split; [discriminate|]).
    + split; [now right|]. split; [discriminate|]. split; [|intros r []].
      intros f I. apply in_map_iff in I. destruct I as (goal & <- & I).
      apply filter_In in I. destruct I as [I P].
      apply String.eqb_eq in P. exists goal. auto.
    + split; [now left|]. split; [discriminate|]. split; [intros f []|].
      intros r I. apply in_map_iff in I. destruct I as (goal & <- & I).
      apply filter_In in I. destruct I as [I P].
      apply orb_true_iff in P. rewrite !String.eqb_eq in P.
      exists goal. auto.
    + split; [now left|]. split; [discriminate|].
      split; [intros f [] | intros r []].
  - eexists; eexists; split; [reflexivity|].
    cbn [reads stress_detected adjustments_recommendations frozen_goals
         reduced_contributions].
    split; [reflexivity|]. split; [discriminate|]. split; [now left|].
    split; [auto|]. split; [intros f [] | intros r []].
Qed.

Lemma stress_adjustments_shape_witness :
  exists a,
    fst (run adjust_goals_using_stress (stopped 0%Z)
           (world_with (signals 50000 45000 None None)
              [goal_with 1000 0 50 (mk_datetime 2024 1 10) None])) = inr a
    /\ frozen_goals a = [] /\ reduced_contributions a = [].
Proof.
  destruct (stress_adjustments_shape (stopped 0%Z)
              (world_with (signals 50000 45000 None None)
                 [goal_with 1000 0 50 (mk_datetime 2024 1 10) None]))
    as (a & w' & Hrun & _ & _ & _ & Hcalm & _).
  exists a. split.
  - rewrite Hrun. reflexivity.
  - apply Hcalm. vm_compute in Hrun. injection Hrun as <- _. reflexivity.
Defined.

(** ** The public entry points *)

(** X11: [quick_goal_health_check] answers "Goal not found" for every goal
    id, on every clock and whatever the engine held: it loads the
    placeholder state, which has no goals; it never raises and never reads
    the clock. *)
Theorem quick_check_not_found gid clock w :
  fst (run (Convenience.quick_goal_health_check gid) clock w)
  = inr (inl "Goal not found"%string)
  /\ reads (snd (run (Convenience.quick_goal_health_check gid) clock w))
     = reads w.
Proof. split; reflexivity. Qed.

(** X12: the module-level [get_savings_goals_report] returns, on every
    clock and from every engine, a report of no goals: zero totals, no
    conflicts, the single insight that no goal is set, a capacity of 0 in
    every band, and the one clock reading as its timestamp. *)
Theorem shipped_report_empty clock w :
  exists rep,
    fst (run Convenience.get_savings_goals_report clock w) = inr rep
    /\ total_goals (report_summary rep) = 0%nat
    /\ report_goals rep = []
    /\ conflicts rep = []
    /\ map insight_type (insights rep) = ["no_goals"%string]
    /\ maximum (savings_capacity rep) == 0
    /\ counted (goal_health rep) = 0%Z
    /\ report_generated rep = clock (reads w).
Proof.
  assert (E : fst (run Convenience.get_savings_goals_report clock w)
              = fst (run get_savings_goals_report (stopped (clock (reads w)))
                       (world_of empty_state)))
    by (vm_compute; reflexivity).
  rewrite E. clear E. generalize (clock (reads w)). intros d.
  assert (S : match fst (run get_savings_goals_report (stopped d)
                           (world_of empty_state)) with
              | inr rep =>
                  total_goals (report_summary rep) = 0%nat
                  /\ report_goals rep = []
                  /\ conflicts rep = []
                  /\ map insight_type (insights rep) = ["no_goals"%string]
                  /\ maximum (savings_capacity rep) == 0
                  /\ counted (goal_health rep) = 0%Z
                  /\ report_generated rep = d
              | inl _ => False
              end) by (vm_compute; repeat split).
  destruct (fst (run get_savings_goals_report (stopped d)
                   (world_of empty_state))) as [e|rep]; [contradiction|].
  now exists rep.
Qed.

(** X13: without goals the conflict detector returns no conflict and the
    insight generator returns the single "no goals" insight; neither reads
    the clock, the signals or anything else. *)
Theorem no_goals_short_circuit clock w :
  goals (engine w) = [] ->
  run detect_goal_conflicts clock w = (inr [], w)
  /\ exists insight,
       run generate_savings_insights clock w = (inr [insight], w)
       /\ insight_type insight = "no_goals"%string
       /\ insight_priority insight = "high"%string.
Proof.
  intros G. unfold detect_goal_conflicts, generate_savings_insights.
  rewrite !run_bind_self, G. split; [reflexivity|].
  eexists. split; [reflexivity|]. split; reflexivity.
Qed.

Lemma no_goals_short_circuit_witness :
  run detect_goal_conflicts (stopped 0%Z) (world_of (income_only 0 100))
  = (inr [], world_of (income_only 0 100)).
Proof.
  apply (no_goals_short_circuit (stopped 0%Z) (world_of (income_only 0 100))).
  reflexivity.
Defined.

(** ** What the analysis leaves alone *)

Section Leaves.
Context {F : Type} (field : Engine -> F).

Lemma leaves_bind {A B} (m : Prog A) (f : A -> Prog B) :
  leaves field m -> (forall a, leaves field (f a)) -> leaves field (bind m f).
Proof. intros Hm Hf. induction Hm; simpl; try constructor; auto. Qed.

Lemma leaves_catch {A} (m : Prog A) (h : exn -> Prog A) :
  leaves field m -> (forall e, leaves field (h e)) -> leaves field (catch m h).
Proof. intros Hm Hh. induction Hm; simpl; try constructor; auto. Qed.

Lemma leaves_lift {A} (r : exn + A) : leaves field (lift r).
Proof. destruct r; constructor. Qed.

Lemma leaves_for_each {X S} (xs : list X) (acc : S) body :
  (forall x a, leaves field (body x a)) -> leaves field (for_each xs acc body).
Proof.
  intros H. revert acc. induction xs as [|x xs IH]; intros acc; simpl.
  - constructor.
  - apply leaves_bind; auto.
Qed.

Lemma run_leaves {A} (m : Prog A) clock w :
  leaves field m -> field (engine (snd (run m clock w))) = field (engine w).
Proof.
  intros H. revert w.
  induction H as [a|e|k _ IH|k _ IH|f k Hf _ IH]; intros w; simpl; auto.
  - rewrite IH. reflexivity.
  - rewrite IH. simpl. apply Hf.
Qed.

End Leaves.

Ltac leaves_step :=
  match goal with
  | |- leaves _ (bind _ _) => apply leaves_bind
  | |- leaves _ (pbind _ _) => apply leaves_bind
  | |- leaves _ (catch _ _) => apply leaves_catch
  | |- leaves _ (ret _) => apply leaves_ret
  | |- leaves _ (lift _) => apply leaves_lift
  | |- leaves _ (for_each _ _ _) => apply leaves_for_each
  | |- leaves _ (if ?b then _ else _) => destruct b
  | |- leaves _ (match ?x with _ => _ end) => destruct x
  | |- leaves _ (let _ := _ in _) => cbv zeta
  | |- forall _, _ => intro
  | |- leaves _ _ => solve [auto with leaves]
  | |- leaves _ _ => constructor
  | |- _ = _ => reflexivity
  end.
Ltac leaves_all := repeat leaves_step.

Create HintDb leaves.

Lemma leaves_goals_getters :
  leaves goals get_income /\ leaves goals get_expenses
  /\ leaves goals get_overspending_data /\ leaves goals get_stress_index.
Proof.
  unfold get_income, get_expenses, get_overspending_data, get_stress_index,
    update, self.
  repeat split; leaves_all.
Qed.

Lemma leaves_goals_now : leaves goals now.
Proof. unfold now. leaves_all. Qed.
Lemma leaves_goals_self : leaves goals self.
Proof. unfold self. leaves_all. Qed.
Lemma leaves_goals_get_income : leaves goals get_income.
Proof. apply leaves_goals_getters. Qed.
Lemma leaves_goals_get_expenses : leaves goals get_expenses.
Proof. apply leaves_goals_getters. Qed.
Lemma leaves_goals_get_overspending : leaves goals get_overspending_data.
Proof. apply leaves_goals_getters. Qed.
Lemma leaves_goals_get_stress : leaves goals get_stress_index.
Proof. apply leaves_goals_getters. Qed.
#[global] Hint Resolve leaves_goals_now leaves_goals_self
  leaves_goals_get_income leaves_goals_get_expenses
  leaves_goals_get_overspending leaves_goals_get_stress : leaves.

Lemma leaves_goals_estimate : leaves goals estimate_monthly_savings_capacity.
Proof. unfold estimate_monthly_savings_capacity. leaves_all. Qed.
Lemma leaves_goals_calculate goal : leaves goals (calculate_goal_progress goal).
Proof. unfold calculate_goal_progress. leaves_all. Qed.
#[global] Hint Resolve leaves_goals_estimate leaves_goals_calculate : leaves.

Lemma leaves_goals_evaluate goal : leaves goals (evaluate_goal_feasibility goal).
Proof. unfold evaluate_goal_feasibility. leaves_all. Qed.
#[global] Hint Resolve leaves_goals_evaluate : leaves.

Lemma leaves_goals_detect : leaves goals detect_goal_conflicts.
Proof. unfold detect_goal_conflicts, split_by_term. leaves_all. Qed.
Lemma leaves_goals_assign goal : leaves goals (assign_goal_health_status goal).
Proof. unfold assign_goal_health_status. leaves_all. Qed.
Lemma leaves_goals_adjust : leaves goals adjust_goals_using_stress.
Proof. unfold adjust_goals_using_stress. leaves_all. Qed.
Lemma leaves_goals_integrate : leaves goals integrate_overspending_impact.
Proof. unfold integrate_overspending_impact. leaves_all. Qed.
Lemma leaves_goals_predict goal : leaves goals (predict_goal_completion goal).
Proof. unfold predict_goal_completion. leaves_all. Qed.
#[global] Hint Resolve leaves_goals_detect leaves_goals_assign
  leaves_goals_adjust leaves_goals_integrate leaves_goals_predict : leaves.

Lemma leaves_goals_delay goal : leaves goals (estimate_goal_delay goal).
Proof. unfold estimate_goal_delay. leaves_all. Qed.
#[global] Hint Resolve leaves_goals_delay : leaves.

Lemma leaves_goals_insights : leaves goals generate_savings_insights.
Proof. unfold generate_savings_insights, goal_insights. leaves_all. Qed.

(** X14: the analysis methods are read-only on the goals and on the state:
    whether one returns or raises, the engine holds the same goals and the
    same state afterwards (the getters they call only refresh the cached
    signal fields). *)
Theorem analysis_read_only A (m : Prog A) clock w :
  analysis A m ->
  goals (engine (snd (run m clock w))) = goals (engine w)
  /\ state (engine (snd (run m clock w))) = state (engine w).
Proof.
  intros H. split.
  - apply run_leaves.
    destruct H; auto using leaves_goals_insights with leaves.
  - apply run_keeps_state. destruct H; auto with keeps.
Qed.

Lemma analysis_read_only_witness :
  goals (engine (snd (run detect_goal_conflicts
                        (stopped (mk_datetime 2024 3 15))
                        (world_with (income_only 50000 50000)
                           [goal_with 1000 0 50 (mk_datetime 2024 1 10)
                              (Some (mk_datetime 2024 3 31))]))))
  = [("g1"%string,
      goal_with 1000 0 50 (mk_datetime 2024 1 10)
        (Some (mk_datetime 2024 3 31)))].
Proof.
  rewrite (proj1 (analysis_read_only _ _ (stopped (mk_datetime 2024 3 15))
                    (world_with (income_only 50000 50000)
                       [goal_with 1000 0 50 (mk_datetime 2024 1 10)
                          (Some (mk_datetime 2024 3 31))])
                    analysis_conflicts)).
  reflexivity.
Defined.
